(** * Ultimate64 MCP server: a shallow embedding of [mcp_ultimate_server.py]

    The development follows the layout of the Python file:
    - [Py]: the fragment of the Python runtime the server relies on
      (strings, JSON values, exceptions, the HTTP client's view of the
      outside world);
    - [Ultimate]: class [UltimateHandler] (connection state,
      [make_request], the tool catalog and [call_tool]);
    - [Web]: class [WebServer] (session registry, the message endpoint,
      the per-session message loop and the direct upload endpoint). *)

From stdpp Require Import gmap strings list pretty.
From Stdlib Require Import ZArith Lia Ascii String.
From Stdlib.Strings Require Import Byte.

Local Open Scope Z_scope.

(* ===================================================================== *)
(** * The Python runtime, as far as the server uses it                    *)
(* ===================================================================== *)

Module Py.

(** ** Strings

    A Python [str] is modelled by [string]; its characters are read as
    the code points below 256. *)

(** [s.startswith(p)] *)
Definition startswith (p s : string) : bool := String.prefix p s.

(** [p in s] for two strings: [p] occurs somewhere in [s]. *)
Fixpoint contains (p s : string) : bool :=
  String.prefix p s ||
  match s with
  | EmptyString => false
  | String _ r => contains p r
  end.

Definition str_is_empty (s : string) : bool :=
  match s with EmptyString => true | String _ _ => false end.

(** [str.isspace] on one character below 256. *)
Definition is_space (c : ascii) : bool :=
  let n := nat_of_ascii c in
  (((9 <=? n) && (n <=? 13)) || ((28 <=? n) && (n <=? 32))
   || (n =? 133) || (n =? 160))%nat.

Fixpoint lstrip_with (p : ascii -> bool) (s : string) : string :=
  match s with
  | EmptyString => EmptyString
  | String c r => if p c then lstrip_with p r else s
  end.

Fixpoint rstrip_with (p : ascii -> bool) (s : string) : string :=
  match s with
  | EmptyString => EmptyString
  | String c r =>
      let r' := rstrip_with p r in
      if p c && str_is_empty r' then EmptyString else String c r'
  end.

Fixpoint char_in (c : ascii) (chars : string) : bool :=
  match chars with
  | EmptyString => false
  | String d r => Ascii.eqb c d || char_in c r
  end.

(** [s.strip()], [s.rstrip(chars)] *)
Definition strip (s : string) : string :=
  rstrip_with is_space (lstrip_with is_space s).
Definition rstrip (chars s : string) : string :=
  rstrip_with (fun c => char_in c chars) s.

(** [s.replace(old, new)] for a non-empty [old]: occurrences are
    replaced from the left and do not overlap.  [skip] counts the
    characters of a matched occurrence still to be dropped. *)
Fixpoint replace_from (skip : nat) (old new s : string) : string :=
  match s with
  | EmptyString => EmptyString
  | String c r =>
      match skip with
      | S k => replace_from k old new r
      | O =>
          if String.prefix old s
          then new +:+ replace_from (String.length old - 1) old new r
          else String c (replace_from 0 old new r)
      end
  end.
Definition replace (old new s : string) : string := replace_from 0 old new s.

Fixpoint last_char (s : string) : option ascii :=
  match s with
  | EmptyString => None
  | String c r => match r with EmptyString => Some c | _ => last_char r end
  end.

(** [s.endswith('/')] *)
Definition endswith_slash (s : string) : bool :=
  match last_char s with
  | Some c => Ascii.eqb c "/"%char
  | None => false
  end.

(** [os.path.join(a, b)] (POSIX). *)
Definition path_join (a b : string) : string :=
  if startswith "/" b then b
  else if str_is_empty a || endswith_slash a then a +:+ b
  else a +:+ "/" +:+ b.

(** [os.path.basename(p)]: what follows the last slash. *)
Fixpoint basename (p : string) : string :=
  match p with
  | EmptyString => EmptyString
  | String c r =>
      if contains "/" p then
        (if contains "/" r then basename r
         else if Ascii.eqb c "/"%char then r else basename r)
      else p
  end.

(** [sep.join(l)] *)
Definition join (sep : string) (l : list string) : string := String.concat sep l.

(** ** Bytes *)

Definition hex_digit (n : N) : ascii :=
  match n with
  | 0%N => "0" | 1%N => "1" | 2%N => "2" | 3%N => "3" | 4%N => "4"
  | 5%N => "5" | 6%N => "6" | 7%N => "7" | 8%N => "8" | 9%N => "9"
  | 10%N => "a" | 11%N => "b" | 12%N => "c" | 13%N => "d" | 14%N => "e"
  | _ => "f"
  end%char.

(** [raw.hex()]: two lower-case digits per byte. *)
Fixpoint hex (raw : list byte) : string :=
  match raw with
  | [] => EmptyString
  | b :: r =>
      let n := Byte.to_N b in
      String (hex_digit (n / 16)) (String (hex_digit (n mod 16)) (hex r))
  end.

(** ** JSON values

    The values [json.loads] produces and [json.dumps] accepts.  A dict
    is an association list in insertion order.  Numbers are integers:
    every numeric tool parameter is declared [integer] in the catalog. *)

#[local] Set Warnings "-register-all".
Inductive json : Type :=
| JNull
| JBool (b : bool)
| JNum (n : Z)
| JStr (s : string)
| JArr (l : list json)
| JObj (kv : list (string * json)).

Definition dict : Type := list (string * json).

(** [d.get(k)] as an option; [k in d]; [d[k]] is [getitem] below. *)
Fixpoint lookup_key (k : string) (d : dict) : option json :=
  match d with
  | [] => None
  | (k', v) :: r => if String.eqb k k' then Some v else lookup_key k r
  end.

Definition has_key (k : string) (d : dict) : bool :=
  match lookup_key k d with Some _ => true | None => false end.

(** [d.get(k)] and [d.get(k, default)] *)
Definition get (k : string) (d : dict) : json := default JNull (lookup_key k d).
Definition get_or (k : string) (dflt : json) (d : dict) : json :=
  default dflt (lookup_key k d).

(** Truth value of a JSON value in a condition. *)
Definition truthy (v : json) : bool :=
  match v with
  | JNull => false
  | JBool b => b
  | JNum n => negb (n =? 0)
  | JStr s => negb (str_is_empty s)
  | JArr l => match l with [] => false | _ => true end
  | JObj kv => match kv with [] => false | _ => true end
  end.

(** [type(v).__name__] *)
Definition type_name (v : json) : string :=
  match v with
  | JNull => "NoneType"
  | JBool _ => "bool"
  | JNum _ => "int"
  | JStr _ => "str"
  | JArr _ => "list"
  | JObj _ => "dict"
  end.

(** ** Exceptions

    Only the classes the server's [except] clauses tell apart, plus the
    ones it raises itself; [exn_msg] is [str(e)]. *)

Inductive exn_class : Type :=
| KeyError | TypeError | AttributeError
| BinasciiError | ClientError | JSONDecodeError | OtherError.

Record exn : Type := Exn { exn_cls : exn_class; exn_msg : string }.

Inductive result (A : Type) : Type :=
| Ok (a : A)
| Raise (e : exn).
Arguments Ok {A} a.
Arguments Raise {A} e.

Definition is_binascii (e : exn) : bool :=
  match exn_cls e with BinasciiError => true | _ => false end.
Definition is_client_error (e : exn) : bool :=
  match exn_cls e with ClientError => true | _ => false end.

(** [str(KeyError(k))] is [repr(k)].  Every key the server subscripts
    with is a literal of letters and underscores, whose [repr] is the
    key between single quotes. *)
Definition key_error (k : string) : exn := Exn KeyError ("'" +:+ k +:+ "'").

(** ** The HTTP client (aiohttp) and the file system

    A request as handed to [ClientSession.request] and the response
    object as the server reads it. *)

Inductive body : Type :=
| NoBody
| JsonBody (j : json)
| RawBody (raw : list byte).

Record Request : Type := mkRequest {
  rq_method : string;
  rq_url : string;
  rq_params : option dict;
  rq_body : body;
  rq_content_type : option string;
  rq_timeout : option Z
}.

Record Response : Type := mkResponse {
  rs_status : Z;
  rs_content_type : option string;      (* the Content-Type header *)
  rs_json : result json;                (* await response.json() *)
  rs_read : result (list byte);         (* await response.read() *)
  rs_text : result string               (* await response.text() *)
}.

(** Library functions the server calls and whose code is not part of the
    repository. [py_format] is [str(v)] for containers; [fault_msg op v]
    is the text of the exception Python raises when [op] meets a value
    [v] of a type it does not support. *)
Record Lib : Type := mkLib {
  json_dumps : json -> string;               (* json.dumps(v, indent=2) *)
  json_dumps_line : json -> string;          (* json.dumps(v) *)
  json_loads : string -> result json;        (* json.loads(s) *)
  b64decode : string -> result (list byte);  (* base64.b64decode(s) *)
  b64decode_strict : string -> result (list byte); (* ..., validate=True *)
  py_format : json -> string;
  fault_msg : string -> json -> string
}.

(** The outside world: the file system and the network.  [path_exists]
    is [os.path.exists] and [read_file v] is [open(v, 'rb')] followed by
    reading the file to its end; both take any value, as the functions
    do.  [http n rq] is the outcome of request [rq] when [n] requests
    were issued before it: either the client raises, or a response
    arrives. *)
Record World : Type := mkWorld {
  path_exists : json -> result bool;
  read_file : json -> result (list byte);
  http : nat -> Request -> result Response
}.

(** [str(v)], as an f-string formats a value. *)
Definition str (L : Lib) (v : json) : string :=
  match v with
  | JNull => "None"
  | JBool true => "True"
  | JBool false => "False"
  | JNum n => pretty n
  | JStr s => s
  | _ => py_format L v
  end.

(** The address a request goes to: the URL and, when there are
    parameters, [?] and the pairs [k=v] joined by [&].  The client
    escapes reserved characters; keys and values made of letters, digits
    and [-._~] go out as they are, and for those this is the address. *)
Definition query_string (L : Lib) (params : dict) : string :=
  join "&" (map (fun kv => fst kv +:+ "=" +:+ str L (snd kv)) params).

Definition request_target (L : Lib) (rq : Request) : string :=
  match rq_params rq with
  | Some (kv :: r) => rq_url rq +:+ "?" +:+ query_string L (kv :: r)
  | _ => rq_url rq
  end.

End Py.

(* ===================================================================== *)
(** * class UltimateHandler                                               *)
(* ===================================================================== *)

Module Ultimate.
Import Py.

(** The connection: [self.base_url] and [self.api_base]. *)
Record Handler : Type := mkHandler {
  base_url : option string;
  api_base : option string
}.

(** What a computation of the handler can change: the connection, and
    the requests handed to the HTTP client so far (oldest first). *)
Record State : Type := mkState {
  handler : Handler;
  issued : list Request
}.

(** Computations that read and write the state and may raise. A raised
    exception keeps the state reached so far. *)
Definition M (A : Type) : Type := State -> result A * State.

Definition ret {A} (a : A) : M A := fun st => (Ok a, st).
Definition raise {A} (e : exn) : M A := fun st => (Raise e, st).
Definition bind {A B} (c : M A) (k : A -> M B) : M B :=
  fun st =>
    match c st with
    | (Ok a, st') => k a st'
    | (Raise e, st') => (Raise e, st')
    end.
(** [try: c  except Exception as e: h e] *)
Definition try_except {A} (c : M A) (h : exn -> M A) : M A :=
  fun st =>
    match c st with
    | (Ok a, st') => (Ok a, st')
    | (Raise e, st') => h e st'
    end.
Definition lift {A} (r : result A) : M A := fun st => (r, st).
Definition get_handler : M Handler := fun st => (Ok (handler st), st).
Definition put_handler (h : Handler) : M unit :=
  fun st => (Ok tt, mkState h (issued st)).

Notation "x <- c ;; k" := (bind c (fun x => k))
  (at level 100, c at next level, right associativity).

(** [get_c64_host_from_env], given the value of [C64_HOST]. *)
Definition get_c64_host_from_env (env_host : option string) : option string :=
  match env_host with
  | Some host =>
      if negb (str_is_empty host) then
        Some (if negb (startswith "http" host) then "http://" +:+ host else host)
      else None
  | None => None
  end.

(** [set_base_url] *)
Definition set_base_url (url : string) (h : Handler) : Handler :=
  let url := if negb (startswith "http" url) then "http://" +:+ url else url in
  let b := rstrip "/" url in
  {| base_url := Some b; api_base := Some (b +:+ "/v1") |}.

(** [__init__] *)
Definition init (url env_host : option string) : Handler :=
  let url := match url with
             | None => get_c64_host_from_env env_host
             | Some _ => url
             end in
  let h := {| base_url := None; api_base := None |} in
  match url with
  | Some u => if negb (str_is_empty u) then set_base_url u h else h
  | None => h
  end.

Definition errors_result (msg : string) : json :=
  JObj [("errors", JArr [JStr msg])].

Definition not_configured : string :=
  "No C64 host configured. Use 'ultimate_set_connection' tool to set connection.".

(** An f-string's rendering of an optional string ([None] when absent). *)
Definition str_opt (o : option string) : string := default "None" o.
Definition opt_truthy (o : option string) : bool :=
  match o with Some s => negb (str_is_empty s) | None => false end.

(** ** The tool catalog *)

(** [mcp.types.Tool], with the three fields the server fills in. *)
Record Tool : Type := mkTool {
  name : string;
  description : string;
  inputSchema : json
}.

(** [get_tools] *)
Definition get_tools : list Tool :=
  [
    mkTool "ultimate_set_connection"
      "Set the hostname and port of the Ultimate C64 device"
      (JObj [
          ("type", JStr "object");
          ("properties", JObj [
            ("hostname", JObj [
              ("type", JStr "string");
              ("description", JStr "Hostname or IP address (e.g., 192.168.1.64)")]);
            ("port", JObj [
              ("type", JStr "integer");
              ("description", JStr "Port number (optional, defaults to 80)")])]);
          ("required", JArr [JStr "hostname"])]);
    mkTool "ultimate_get_connection"
      "Get the current connection details for the Ultimate C64 device"
      (JObj [
          ("type", JStr "object");
          ("properties", JObj []);
          ("required", JArr [])]);
    mkTool "ultimate_version"
      "Get the current version of the Ultimate's REST API"
      (JObj [
          ("type", JStr "object");
          ("properties", JObj []);
          ("required", JArr [])]);
    mkTool "ultimate_play_sid"
      "Play a SID file on the Ultimate"
      (JObj [
          ("type", JStr "object");
          ("properties", JObj [
            ("file", JObj [
              ("type", JStr "string");
              ("description", JStr "Path to the SID file on the Ultimate")]);
            ("song_number", JObj [
              ("type", JStr "integer");
              ("description", JStr "Optional song number to play (default: first song)");
              ("minimum", JNum 1)])]);
          ("required", JArr [JStr "file"])]);
    mkTool "ultimate_play_mod"
      "Play an Amiga MOD file on the Ultimate"
      (JObj [
          ("type", JStr "object");
          ("properties", JObj [
            ("file", JObj [
              ("type", JStr "string");
              ("description", JStr "Path to the MOD file on the Ultimate")])]);
          ("required", JArr [JStr "file"])]);
    mkTool "ultimate_load_program"
      "Load a program into C64 memory (does not run it)"
      (JObj [
          ("type", JStr "object");
          ("properties", JObj [
            ("file", JObj [
              ("type", JStr "string");
              ("description", JStr "Path to the program file on the Ultimate")])]);
          ("required", JArr [JStr "file"])]);
    mkTool "ultimate_run_program"
      "Load and run a program on the C64"
      (JObj [
          ("type", JStr "object");
          ("properties", JObj [
            ("file", JObj [
              ("type", JStr "string");
              ("description", JStr "Path to the program file on the Ultimate")])]);
          ("required", JArr [JStr "file"])]);
    mkTool "ultimate_run_prg_binary"
      "Upload and run a PRG file. Accepts file path, base64-encoded binary data, or URL to download the PRG file."
      (JObj [
          ("type", JStr "object");
          ("properties", JObj [
            ("file_path", JObj [
              ("type", JStr "string");
              ("description", JStr "Path to the PRG file to upload and run (if file is on server filesystem)")]);
            ("prg_data_base64", JObj [
              ("type", JStr "string");
              ("description", JStr "Base64-encoded PRG file binary data. Use this for large files or when file_path is not accessible.")]);
            ("url", JObj [
              ("type", JStr "string");
              ("description", JStr "URL to download the PRG file from (HTTP/HTTPS). Useful when the file is hosted remotely.")])]);
          ("required", JArr [])]);
    mkTool "ultimate_run_cartridge"
      "Load and run a cartridge file"
      (JObj [
          ("type", JStr "object");
          ("properties", JObj [
            ("file", JObj [
              ("type", JStr "string");
              ("description", JStr "Path to the cartridge file on the Ultimate")])]);
          ("required", JArr [JStr "file"])]);
    mkTool "ultimate_get_config_categories"
      "Get all configuration categories"
      (JObj [
          ("type", JStr "object");
          ("properties", JObj []);
          ("required", JArr [])]);
    mkTool "ultimate_get_config_category"
      "Get configuration items in a specific category"
      (JObj [
          ("type", JStr "object");
          ("properties", JObj [
            ("category", JObj [
              ("type", JStr "string");
              ("description", JStr "Configuration category name (supports wildcards)")])]);
          ("required", JArr [JStr "category"])]);
    mkTool "ultimate_get_config_item"
      "Get specific configuration item details"
      (JObj [
          ("type", JStr "object");
          ("properties", JObj [
            ("category", JObj [
              ("type", JStr "string");
              ("description", JStr "Configuration category name")]);
            ("item", JObj [
              ("type", JStr "string");
              ("description", JStr "Configuration item name (supports wildcards)")])]);
          ("required", JArr [JStr "category"; JStr "item"])]);
    mkTool "ultimate_set_config_item"
      "Set a configuration item value"
      (JObj [
          ("type", JStr "object");
          ("properties", JObj [
            ("category", JObj [
              ("type", JStr "string");
              ("description", JStr "Configuration category name")]);
            ("item", JObj [
              ("type", JStr "string");
              ("description", JStr "Configuration item name")]);
            ("value", JObj [
              ("type", JStr "string");
              ("description", JStr "Value to set")])]);
          ("required", JArr [JStr "category"; JStr "item"; JStr "value"])]);
    mkTool "ultimate_mount_disk"
      "Mount a disk image on a drive"
      (JObj [
          ("type", JStr "object");
          ("properties", JObj [
            ("drive", JObj [
              ("type", JStr "string");
              ("description", JStr "Drive identifier (A, B, etc.)");
              ("enum", JArr [JStr "A"; JStr "B"; JStr "C"; JStr "D"])]);
            ("file", JObj [
              ("type", JStr "string");
              ("description", JStr "Path to the disk image file")])]);
          ("required", JArr [JStr "drive"; JStr "file"])]);
    mkTool "ultimate_unmount_disk"
      "Unmount a disk from a drive"
      (JObj [
          ("type", JStr "object");
          ("properties", JObj [
            ("drive", JObj [
              ("type", JStr "string");
              ("description", JStr "Drive identifier (A, B, etc.)");
              ("enum", JArr [JStr "A"; JStr "B"; JStr "C"; JStr "D"])])]);
          ("required", JArr [JStr "drive"])]);
    mkTool "ultimate_turn_drive_on"
      "Turn on a drive"
      (JObj [
          ("type", JStr "object");
          ("properties", JObj [
            ("drive", JObj [
              ("type", JStr "string");
              ("description", JStr "Drive identifier (A, B, etc.)");
              ("enum", JArr [JStr "A"; JStr "B"; JStr "C"; JStr "D"])])]);
          ("required", JArr [JStr "drive"])]);
    mkTool "ultimate_turn_drive_off"
      "Turn off a drive"
      (JObj [
          ("type", JStr "object");
          ("properties", JObj [
            ("drive", JObj [
              ("type", JStr "string");
              ("description", JStr "Drive identifier (A, B, etc.)");
              ("enum", JArr [JStr "A"; JStr "B"; JStr "C"; JStr "D"])])]);
          ("required", JArr [JStr "drive"])]);
    mkTool "ultimate_create_d64"
      "Create a D64 disk image"
      (JObj [
          ("type", JStr "object");
          ("properties", JObj [
            ("path", JObj [
              ("type", JStr "string");
              ("description", JStr "Full path where to create the D64 file")]);
            ("tracks", JObj [
              ("type", JStr "integer");
              ("description", JStr "Number of tracks (35 or 40)");
              ("enum", JArr [JNum 35; JNum 40])]);
            ("diskname", JObj [
              ("type", JStr "string");
              ("description", JStr "Optional disk name for the header")])]);
          ("required", JArr [JStr "path"])]);
    mkTool "ultimate_create_d71"
      "Create a D71 disk image"
      (JObj [
          ("type", JStr "object");
          ("properties", JObj [
            ("path", JObj [
              ("type", JStr "string");
              ("description", JStr "Full path where to create the D71 file")]);
            ("diskname", JObj [
              ("type", JStr "string");
              ("description", JStr "Optional disk name for the header")])]);
          ("required", JArr [JStr "path"])]);
    mkTool "ultimate_create_d81"
      "Create a D81 disk image"
      (JObj [
          ("type", JStr "object");
          ("properties", JObj [
            ("path", JObj [
              ("type", JStr "string");
              ("description", JStr "Full path where to create the D81 file")]);
            ("diskname", JObj [
              ("type", JStr "string");
              ("description", JStr "Optional disk name for the header")])]);
          ("required", JArr [JStr "path"])]);
    mkTool "ultimate_save_config"
      "Save current configuration to flash memory"
      (JObj [
          ("type", JStr "object");
          ("properties", JObj []);
          ("required", JArr [])]);
    mkTool "ultimate_load_config"
      "Load configuration from flash memory"
      (JObj [
          ("type", JStr "object");
          ("properties", JObj []);
          ("required", JArr [])]);
    mkTool "ultimate_reset_config"
      "Reset configuration to factory defaults"
      (JObj [
          ("type", JStr "object");
          ("properties", JObj []);
          ("required", JArr [])]);
    mkTool "ultimate_read_memory"
      "Read memory from a specific address on the C64"
      (JObj [
          ("type", JStr "object");
          ("properties", JObj [
            ("address", JObj [
              ("type", JStr "string");
              ("description", JStr "Memory address in hexadecimal format (e.g., 'C000', 'D020')")]);
            ("length", JObj [
              ("type", JStr "integer");
              ("description", JStr "Number of bytes to read (default: 256, max: 256)");
              ("minimum", JNum 1);
              ("maximum", JNum 256)])]);
          ("required", JArr [JStr "address"])]);
    mkTool "ultimate_write_memory"
      "Write data to a specific memory address on the C64 using hex string (PUT method)"
      (JObj [
          ("type", JStr "object");
          ("properties", JObj [
            ("address", JObj [
              ("type", JStr "string");
              ("description", JStr "Memory address in hexadecimal format (e.g., 'C000', 'D020')")]);
            ("data", JObj [
              ("type", JStr "string");
              ("description", JStr "Data to write in hexadecimal format (e.g., '05' for single byte, '0504' for two bytes)")])]);
          ("required", JArr [JStr "address"; JStr "data"])]);
    mkTool "ultimate_write_memory_binary"
      "Write binary data from a file to a specific memory address on the C64 (POST method with binary body)"
      (JObj [
          ("type", JStr "object");
          ("properties", JObj [
            ("address", JObj [
              ("type", JStr "string");
              ("description", JStr "Memory address in hexadecimal format (e.g., 'C000', 'D020')")]);
            ("file_path", JObj [
              ("type", JStr "string");
              ("description", JStr "Path to the binary file to write to memory")])]);
          ("required", JArr [JStr "address"; JStr "file_path"])]);
    mkTool "ultimate_reset_machine"
      "Reset the C64 machine (soft reset)"
      (JObj [
          ("type", JStr "object");
          ("properties", JObj []);
          ("required", JArr [])]);
    mkTool "ultimate_power_off"
      "Power off the Ultimate device (hardware power off)"
      (JObj [
          ("type", JStr "object");
          ("properties", JObj []);
          ("required", JArr [])]);
    mkTool "ultimate_get_machine_info"
      "Get machine information and status"
      (JObj [
          ("type", JStr "object");
          ("properties", JObj []);
          ("required", JArr [])]);
    mkTool "ultimate_get_machine_state"
      "Get current machine state"
      (JObj [
          ("type", JStr "object");
          ("properties", JObj []);
          ("required", JArr [])]);
    mkTool "ultimate_soft_reset"
      "Perform a soft reset (load empty program)"
      (JObj [
          ("type", JStr "object");
          ("properties", JObj []);
          ("required", JArr [])]);
    mkTool "ultimate_reboot_device"
      "Reboot the Ultimate device"
      (JObj [
          ("type", JStr "object");
          ("properties", JObj []);
          ("required", JArr [])]);
    mkTool "ultimate_set_drive_mode"
      "Set drive mode (1541, 1571, 1581)"
      (JObj [
          ("type", JStr "object");
          ("properties", JObj [
            ("drive", JObj [
              ("type", JStr "string");
              ("description", JStr "Drive identifier (A, B, etc.)");
              ("enum", JArr [JStr "A"; JStr "B"; JStr "C"; JStr "D"])]);
            ("mode", JObj [
              ("type", JStr "string");
              ("description", JStr "Drive mode");
              ("enum", JArr [JStr "1541"; JStr "1571"; JStr "1581"])])]);
          ("required", JArr [JStr "drive"; JStr "mode"])]);
    mkTool "ultimate_load_drive_rom"
      "Load a custom ROM into a drive"
      (JObj [
          ("type", JStr "object");
          ("properties", JObj [
            ("drive", JObj [
              ("type", JStr "string");
              ("description", JStr "Drive identifier (A, B, etc.)");
              ("enum", JArr [JStr "A"; JStr "B"; JStr "C"; JStr "D"])]);
            ("file", JObj [
              ("type", JStr "string");
              ("description", JStr "Path to the ROM file on the Ultimate")])]);
          ("required", JArr [JStr "drive"; JStr "file"])]);
    mkTool "ultimate_get_file_info"
      "Get information about a file"
      (JObj [
          ("type", JStr "object");
          ("properties", JObj [
            ("path", JObj [
              ("type", JStr "string");
              ("description", JStr "Path to the file on the Ultimate")])]);
          ("required", JArr [JStr "path"])]);
    mkTool "ultimate_create_dnp"
      "Create a DNP disk image"
      (JObj [
          ("type", JStr "object");
          ("properties", JObj [
            ("path", JObj [
              ("type", JStr "string");
              ("description", JStr "Full path where to create the DNP file")]);
            ("tracks", JObj [
              ("type", JStr "integer");
              ("description", JStr "Number of tracks (required, max 255)");
              ("minimum", JNum 1);
              ("maximum", JNum 255)]);
            ("diskname", JObj [
              ("type", JStr "string");
              ("description", JStr "Optional disk name for the header")])]);
          ("required", JArr [JStr "path"; JStr "tracks"])]);
    mkTool "ultimate_start_stream"
      "Start a data stream (U64 only: video, audio, debug)"
      (JObj [
          ("type", JStr "object");
          ("properties", JObj [
            ("stream", JObj [
              ("type", JStr "string");
              ("description", JStr "Stream type");
              ("enum", JArr [JStr "video"; JStr "audio"; JStr "debug"])]);
            ("ip", JObj [
              ("type", JStr "string");
              ("description", JStr "IP address to send stream to (with optional port, e.g., '192.168.1.100:6789')")])]);
          ("required", JArr [JStr "stream"; JStr "ip"])]);
    mkTool "ultimate_stop_stream"
      "Stop a data stream (U64 only)"
      (JObj [
          ("type", JStr "object");
          ("properties", JObj [
            ("stream", JObj [
              ("type", JStr "string");
              ("description", JStr "Stream type");
              ("enum", JArr [JStr "video"; JStr "audio"; JStr "debug"])])]);
          ("required", JArr [JStr "stream"])]);
    mkTool "ultimate_bulk_config_update"
      "Update multiple configuration settings at once"
      (JObj [
          ("type", JStr "object");
          ("properties", JObj [
            ("config", JObj [
              ("type", JStr "object");
              ("description", JStr "Configuration object with categories and settings")])]);
          ("required", JArr [JStr "config"])])
  ].

(** The [required] list of a tool's input schema. *)
Definition required (t : Tool) : list string :=
  match inputSchema t with
  | JObj kv =>
      match lookup_key "required" kv with
      | Some (JArr l) =>
          omap (fun v => match v with JStr s => Some s | _ => None end) l
      | _ => []
      end
  | _ => []
  end.

(** ** Tool results *)

(** [mcp.types.TextContent] and [mcp.types.CallToolResult].  The library
    declares [isError] with default [False]. *)
Record TextContent : Type := mkTextContent {
  type_ : string;
  text : string
}.

Record CallToolResult : Type := mkCallToolResult {
  content : list TextContent;
  isError : bool
}.

(** [CallToolResult(content=[TextContent(type="text", text=s)])]: the
    only way the server builds a result; [isError] is never passed. *)
Definition text_result (s : string) : CallToolResult :=
  {| content := [mkTextContent "text" s]; isError := false |}.

(** How the body of [call_tool] ends: by a [return] of its own, or by
    leaving a [result] for the rendering at the end of the function. *)
Inductive outcome : Type :=
| Return (r : CallToolResult)
| Fall (result : json).

(** [v == s] for a string literal [s]. *)
Definition is_str (v : json) (s : string) : bool :=
  match v with
  | JStr t => String.eqb t s
  | _ => false
  end.
Notation "v == s" := (is_str v s) (at level 70, no associativity).

Section WithWorld.
Context (L : Lib) (W : World).

(** Hand one request to the HTTP client: it is recorded, and the world
    decides between a response and an exception. *)
Definition send (rq : Request) : M Response :=
  fun st =>
    (http W (List.length (issued st)) rq, mkState (handler st) (issued st ++ [rq])).

(** [make_request].  The [except] around [raw.hex()] is left out: [hex]
    of a bytes object does not raise. *)
Definition make_request (method endpoint : string)
    (params : option dict) (data : option json) : M json :=
  h <- get_handler ;;
  if negb (opt_truthy (api_base h)) then
    ret (errors_result not_configured)
  else
    let url := str_opt (api_base h) +:+ "/" +:+ endpoint in
    try_except
      (response <- send (mkRequest method url params
                           (match data with Some j => JsonBody j | None => NoBody end)
                           None None) ;;
       if rs_status response =? 204 then ret (JObj [("ok", JBool true)])
       else if rs_status response =? 200 then
         let content_type := default "" (rs_content_type response) in
         if contains "application/json" content_type then
           lift (rs_json response)
         else
           raw <- lift (rs_read response) ;;
           ret (JObj [("data", JStr (hex raw))])
       else
         body <- lift (rs_text response) ;;
         ret (errors_result
                ("HTTP " +:+ pretty (rs_status response) +:+ ": " +:+ body)))
      (fun e => ret (errors_result ("Request failed: " +:+ exn_msg e))).

(** ** Helpers for the bodies of the tools

    [call_tool] declares [arguments: dict], and nothing checks it: the
    message loop passes on whatever the JSON-RPC message holds.  The
    three ways the tools read [arguments] are therefore defined on any
    value. *)

(** [a[k]]: [KeyError] when the key is absent from a dict. *)
Definition getitem (k : string) (a : json) : M json :=
  match a with
  | JObj d =>
      match lookup_key k d with
      | Some v => ret v
      | None => raise (key_error k)
      end
  | _ => raise (Exn TypeError (fault_msg L "getitem" a))
  end.

(** [a.get(k)] and [a.get(k, dflt)] *)
Definition get_or_m (k : string) (dflt : json) (a : json) : M json :=
  match a with
  | JObj d => ret (get_or k dflt d)
  | _ => raise (Exn AttributeError (fault_msg L "get" a))
  end.
Definition get_m (k : string) (a : json) : M json := get_or_m k JNull a.

(** [k in a] *)
Definition contains_key (k : string) (a : json) : M bool :=
  match a with
  | JObj d => ret (has_key k d)
  | JArr l =>
      ret (existsb (fun x => match x with JStr s => String.eqb s k | _ => false end) l)
  | JStr s => ret (contains k s)
  | _ => raise (Exn TypeError (fault_msg L "in" a))
  end.

(** [v.meth(...)] for a string method: any other value has no such
    attribute. *)
Definition as_str (meth : string) (v : json) : M string :=
  match v with
  | JStr s => ret s
  | _ => raise (Exn AttributeError (fault_msg L meth v))
  end.

(** [len(v)] *)
Definition len (v : json) : M Z :=
  match v with
  | JStr s => ret (Z.of_nat (String.length s))
  | JArr l => ret (Z.of_nat (List.length l))
  | JObj kv => ret (Z.of_nat (List.length kv))
  | _ => raise (Exn TypeError (fault_msg L "len" v))
  end.

Definition size (raw : list byte) : Z := Z.of_nat (List.length raw).

Definition exists_ (v : json) : M bool := lift (path_exists W v).
Definition open_read (v : json) : M (list byte) := lift (read_file W v).

(** [d[k] = v] on a dict: the key keeps its place when present. *)
Fixpoint dict_set (k : string) (v : json) (d : dict) : dict :=
  match d with
  | [] => [(k, v)]
  | (k', v') :: r =>
      if String.eqb k k' then (k, v) :: r else (k', v') :: dict_set k v r
  end.

(** [result = await self.make_request(...)], leaving [result] for the
    rendering. *)
Definition call (method endpoint : string)
    (params : option dict) (data : option json) : M outcome :=
  result <- make_request method endpoint params data ;;
  ret (Fall result).

Definition octet_stream : option string := Some "application/octet-stream".

Definition http_error (response : Response) : M json :=
  body <- lift (rs_text response) ;;
  ret (errors_result
         ("HTTP " +:+ pretty (rs_status response) +:+ ": " +:+ body)).

(** The remapping of a host path to the container's [/workspace], as
    [ultimate_play_sid] and [ultimate_write_memory_binary] both do it. *)
Definition remap_workspace (path : json) : M json :=
  ws <- exists_ (JStr "/workspace") ;;
  if ws then
    p <- as_str "startswith" path ;;
    if startswith "/Users/martijn/UltimateMCP" p then
      ret (JStr (replace "/Users/martijn/UltimateMCP" "/workspace" p))
    else if negb (startswith "/" p) then
      ret (JStr (path_join "/workspace" p))
    else ret path
  else ret path.

(** ** [ultimate_set_connection], [ultimate_get_connection] *)

Definition set_connection (arguments : json) : M outcome :=
  hostname <- getitem "hostname" arguments ;;
  port <- get_m "port" arguments ;;
  let url :=
    if truthy port
    then "http://" +:+ str L hostname +:+ ":" +:+ str L port
    else "http://" +:+ str L hostname in
  h <- get_handler ;;
  _ <- put_handler (set_base_url url h) ;;
  h <- get_handler ;;
  let result :=
    JObj [("ok", JBool true);
          ("message", JStr ("Connection set to " +:+ str_opt (base_url h)))] in
  ret (Return (text_result (json_dumps L result))).

Definition get_connection : M outcome :=
  h <- get_handler ;;
  let result :=
    JObj [("base_url",
           match base_url h with Some u => JStr u | None => JNull end)] in
  ret (Return (text_result (json_dumps L result))).

(** ** [ultimate_play_sid] *)

Definition play_sid (arguments : json) : M outcome :=
  file_path <- getitem "file" arguments ;;
  song_number <- get_m "song_number" arguments ;;
  let songnr := if truthy song_number then [("songnr", song_number)] else [] in
  result <-
    try_except
      (mapped_path <- remap_workspace file_path ;;
       found <- exists_ mapped_path ;;
       if found then
         h <- get_handler ;;
         let url := str_opt (api_base h) +:+ "/runners:sidplay" in
         data <- open_read mapped_path ;;
         response <- send (mkRequest "POST" url (Some songnr) (RawBody data)
                             octet_stream None) ;;
         if (rs_status response =? 200) || (rs_status response =? 204) then
           try_except (lift (rs_json response))
                      (fun _ => ret (JObj [("ok", JBool true)]))
         else http_error response
       else
         make_request "PUT" "runners:sidplay"
                      (Some (("file", file_path) :: songnr)) None)
      (fun e => ret (errors_result ("Failed to play SID: " +:+ exn_msg e))) ;;
  ret (Fall result).

(** ** [ultimate_write_memory_binary]

    The handler of the one [try] quotes [file_path] as it stands when the
    exception is raised: the argument while the path is being remapped,
    the remapped path afterwards. *)

Definition write_memory_binary (arguments : json) : M outcome :=
  address <- getitem "address" arguments ;;
  file_path <- getitem "file_path" arguments ;;
  let failed (path : json) (e : exn) : M json :=
    ret (errors_result ("Failed to write binary data from " +:+ str L path
                        +:+ ": " +:+ exn_msg e)) in
  result <-
    try_except
      (path <- remap_workspace file_path ;;
       try_except
         (binary_data <- open_read path ;;
          h <- get_handler ;;
          let url := str_opt (api_base h) +:+ "/machine:writemem" in
          let message :=
            JStr ("Successfully wrote " +:+ pretty (size binary_data)
                  +:+ " bytes to address $" +:+ str L address) in
          let written := JObj [("ok", JBool true); ("message", message)] in
          response <- send (mkRequest "POST" url (Some [("address", address)])
                              (RawBody binary_data) octet_stream None) ;;
          if rs_status response =? 204 then ret written
          else if rs_status response =? 200 then
            try_except
              (result <- lift (rs_json response) ;;
               match result with
               | JObj kv => ret (JObj (dict_set "message" message kv))
               | _ => raise (Exn TypeError (fault_msg L "setitem" result))
               end)
              (fun _ => ret written)
          else http_error response)
         (failed path))
      (failed file_path) ;;
  ret (Fall result).

(** ** [ultimate_run_prg_binary] *)

(** [result = {"errors": [msg]}] followed by the [return] of its dump. *)
Definition early (msg : string) : outcome :=
  Return (text_result (json_dumps L (errors_result msg))).

Definition possible_mounts : list string := ["/workspace"; "/app"; "/mnt"; "/data"].

(** The candidates a path under [/Users/] adds, mount by mount. *)
Fixpoint host_candidates (file_path : string) (mounts : list string)
  : M (list string) :=
  match mounts with
  | [] => ret []
  | mount :: r =>
      found <- exists_ (JStr mount) ;;
      rest <- host_candidates file_path r ;;
      ret ((if found then
              (if contains "/Users/martijn/UltimateMCP" file_path
               then [replace "/Users/martijn/UltimateMCP" mount file_path]
               else [])
              ++ [path_join mount (basename file_path)]
            else []) ++ rest)
  end.

(** The candidates a relative path adds. *)
Fixpoint relative_candidates (file_path : string) (mounts : list string)
  : M (list string) :=
  match mounts with
  | [] => ret []
  | mount :: r =>
      found <- exists_ (JStr mount) ;;
      rest <- relative_candidates file_path r ;;
      ret ((if found then [path_join mount file_path] else []) ++ rest)
  end.

(** The first candidate that exists and can be read wins. *)
Fixpoint try_paths (paths : list string)
  : M (option (list byte * string)) :=
  match paths with
  | [] => ret None
  | try_path :: r =>
      found <- exists_ (JStr try_path) ;;
      if found then
        try_except
          (prg_data <- open_read (JStr try_path) ;;
           ret (Some (prg_data,
                      "file " +:+ try_path +:+ " (" +:+ pretty (size prg_data)
                      +:+ " bytes)")))
          (fun _ => try_paths r)
      else try_paths r
  end.

(** Priority 1: base64 data. *)
Definition prg_from_base64 (base64_str : json)
  : M (outcome + list byte * string) :=
  _ <- len base64_str ;;                 (* the log line formats its length *)
  base64_str <- as_str "strip" base64_str ;;
  let base64_str := strip base64_str in
  if str_is_empty base64_str then ret (inl (early "Base64 data is empty"))
  else
    try_except
      (prg_data <- lift (b64decode_strict L base64_str) ;;
       ret (inr (prg_data,
                 "base64 data (" +:+ pretty (size prg_data) +:+ " bytes)")))
      (fun e =>
         if is_binascii e then
           ret (inl (early ("Invalid base64 data: " +:+ exn_msg e
                   +:+ ". Make sure the base64 string is complete and properly encoded.")))
         else
           ret (inl (early ("Failed to decode base64 data: " +:+ exn_msg e)))).

(** Priority 2: download from a URL, waiting 60 seconds at most.  The
    client accepts a string as the address and raises on anything else. *)
Definition prg_from_url (download_url : json)
  : M (outcome + list byte * string) :=
  try_except
    (response <-
       match download_url with
       | JStr u => send (mkRequest "GET" u None NoBody None (Some 60))
       | _ => raise (Exn TypeError (fault_msg L "url" download_url))
       end ;;
     if rs_status response =? 200 then
       prg_data <- lift (rs_read response) ;;
       ret (inr (prg_data,
                 "URL " +:+ str L download_url +:+ " ("
                 +:+ pretty (size prg_data) +:+ " bytes)"))
     else
       ret (inl (early ("Failed to download PRG file from URL: HTTP "
                        +:+ pretty (rs_status response)))))
    (fun e =>
       if is_client_error e then
         ret (inl (early ("Failed to download PRG file from URL: " +:+ exn_msg e)))
       else
         ret (inl (early ("Error downloading PRG file: " +:+ exn_msg e)))).

(** Priority 3: a file on the server's file system. *)
Definition prg_from_file (file_path : json)
  : M (outcome + list byte * string) :=
  original_path <- as_str "startswith" file_path ;;
  hosted <-
    (if startswith "/Users/" original_path
     then host_candidates original_path possible_mounts else ret []) ;;
  relative <-
    (if negb (startswith "/" original_path)
     then relative_candidates original_path possible_mounts else ret []) ;;
  let mapped_paths := [original_path] ++ hosted ++ relative in
  found <- try_paths mapped_paths ;;
  match found with
  | Some r => ret (inr r)
  | None =>
      ret (inl (early
        ("File not found: " +:+ original_path +:+ ". Tried paths: "
         +:+ join ", " (take 5 mapped_paths)
         +:+ ". Consider using 'prg_data_base64' or 'url' parameter instead.")))
  end.

(** [k in arguments and arguments[k]] *)
Definition given (k : string) (arguments : json) : M bool :=
  present <- contains_key k arguments ;;
  if present then
    v <- getitem k arguments ;;
    ret (truthy v)
  else ret false.

(** Past the three sources [prg_data] is a bytes object: each of them
    either sets it or returns. *)
Definition run_prg_binary (arguments : json) : M outcome :=
  try_except
    (by_base64 <- given "prg_data_base64" arguments ;;
     source <-
       (if by_base64 then
          base64_str <- getitem "prg_data_base64" arguments ;;
          prg_from_base64 base64_str
        else
          by_url <- given "url" arguments ;;
          if by_url then
            download_url <- getitem "url" arguments ;;
            prg_from_url download_url
          else
            by_file <- given "file_path" arguments ;;
            if by_file then
              file_path <- getitem "file_path" arguments ;;
              prg_from_file file_path
            else
              ret (inl (early
                "One of 'file_path', 'prg_data_base64', or 'url' must be provided"))) ;;
     match source with
     | inl returned => ret returned
     | inr (prg_data, source_info) =>
         if size prg_data =? 0 then
           ret (early "No PRG data provided or data is empty")
         else if size prg_data <? 2 then
           ret (early "PRG file is too small (must be at least 2 bytes for load address)")
         else
           h <- get_handler ;;
           let url := str_opt (api_base h) +:+ "/runners:run_prg" in
           response <- send (mkRequest "POST" url None (RawBody prg_data)
                               octet_stream (Some 60)) ;;
           if rs_status response =? 200 then
             response_data <-
               try_except (lift (rs_json response))
                          (fun _ => ret (JObj [("message", JStr "Program started")])) ;;
             ret (Fall (JObj [("success", JBool true);
                              ("message", JStr ("Running PRG from " +:+ source_info));
                              ("size_bytes", JNum (size prg_data));
                              ("response", response_data)]))
           else
             body <- lift (rs_text response) ;;
             ret (Fall (errors_result
                    ("Failed to run PRG: HTTP " +:+ pretty (rs_status response)
                     +:+ ": " +:+ body)))
     end)
    (fun e =>
       if is_binascii e then
         ret (Fall (errors_result ("Invalid base64 data: " +:+ exn_msg e)))
       else
         ret (Fall (errors_result ("Failed to process PRG file: " +:+ exn_msg e)))).

(** ** The disk-image tools: optional parameters are copied when given *)

Definition optional (k : string) (arguments : json) : M dict :=
  present <- contains_key k arguments ;;
  if present then
    v <- getitem k arguments ;;
    ret [(k, v)]
  else ret [].

(** ** [call_tool] *)

(** The chain of [if]/[elif] on the tool name, up to the rendering.
    [tool_name] is declared [str]; like [arguments] it arrives unchecked,
    and a value that is not a string equals none of the names. *)
Definition call_tool_body (tool_name : json) (arguments : json) : M outcome :=
  if tool_name == "ultimate_set_connection" then set_connection arguments
  else if tool_name == "ultimate_get_connection" then get_connection
  else if tool_name == "ultimate_version" then call "GET" "version" None None
  else if tool_name == "ultimate_play_sid" then play_sid arguments
  else if tool_name == "ultimate_play_mod" then
    file_path <- getitem "file" arguments ;;
    call "PUT" "runners:modplay" (Some [("file", file_path)]) None
  else if tool_name == "ultimate_load_program" then
    file_path <- getitem "file" arguments ;;
    call "PUT" "runners:load_prg" (Some [("file", file_path)]) None
  else if tool_name == "ultimate_run_program" then
    file_path <- getitem "file" arguments ;;
    call "PUT" "runners:run_prg" (Some [("file", file_path)]) None
  else if tool_name == "ultimate_run_prg_binary" then run_prg_binary arguments
  else if tool_name == "ultimate_run_cartridge" then
    file_path <- getitem "file" arguments ;;
    call "PUT" "runners:run_crt" (Some [("file", file_path)]) None
  else if tool_name == "ultimate_get_config_categories" then
    call "GET" "configs" None None
  else if tool_name == "ultimate_get_config_category" then
    category <- getitem "category" arguments ;;
    call "GET" ("configs/" +:+ str L category) None None
  else if tool_name == "ultimate_get_config_item" then
    category <- getitem "category" arguments ;;
    item <- getitem "item" arguments ;;
    call "GET" ("configs/" +:+ str L category +:+ "/" +:+ str L item) None None
  else if tool_name == "ultimate_set_config_item" then
    category <- getitem "category" arguments ;;
    item <- getitem "item" arguments ;;
    value <- getitem "value" arguments ;;
    call "PUT" ("configs/" +:+ str L category +:+ "/" +:+ str L item)
         (Some [("value", value)]) None
  else if tool_name == "ultimate_mount_disk" then
    drive <- getitem "drive" arguments ;;
    file_path <- getitem "file" arguments ;;
    call "PUT" ("drives/" +:+ str L drive +:+ ":mount")
         (Some [("image", file_path)]) None
  else if tool_name == "ultimate_unmount_disk" then
    drive <- getitem "drive" arguments ;;
    call "PUT" ("drives/" +:+ str L drive +:+ ":remove") None None
  else if tool_name == "ultimate_turn_drive_on" then
    drive <- getitem "drive" arguments ;;
    call "PUT" ("drives/" +:+ str L drive +:+ ":on") None None
  else if tool_name == "ultimate_turn_drive_off" then
    drive <- getitem "drive" arguments ;;
    call "PUT" ("drives/" +:+ str L drive +:+ ":off") None None
  else if tool_name == "ultimate_create_d64" then
    path <- getitem "path" arguments ;;
    tracks <- optional "tracks" arguments ;;
    diskname <- optional "diskname" arguments ;;
    call "PUT" ("files/" +:+ str L path +:+ ":create_d64")
         (Some (tracks ++ diskname)) None
  else if tool_name == "ultimate_create_d71" then
    path <- getitem "path" arguments ;;
    diskname <- optional "diskname" arguments ;;
    call "PUT" ("files/" +:+ str L path +:+ ":create_d71") (Some diskname) None
  else if tool_name == "ultimate_create_d81" then
    path <- getitem "path" arguments ;;
    diskname <- optional "diskname" arguments ;;
    call "PUT" ("files/" +:+ str L path +:+ ":create_d81") (Some diskname) None
  else if tool_name == "ultimate_save_config" then
    call "PUT" "configs:save_to_flash" None None
  else if tool_name == "ultimate_load_config" then
    call "PUT" "configs:load_from_flash" None None
  else if tool_name == "ultimate_reset_config" then
    call "PUT" "configs:reset_to_default" None None
  else if tool_name == "ultimate_read_memory" then
    address <- getitem "address" arguments ;;
    length <- get_or_m "length" (JNum 256) arguments ;;
    call "GET" "machine:readmem"
         (Some [("address", address); ("length", length)]) None
  else if tool_name == "ultimate_write_memory" then
    address <- getitem "address" arguments ;;
    data <- getitem "data" arguments ;;
    call "PUT" "machine:writemem"
         (Some [("address", address); ("data", data)]) None
  else if tool_name == "ultimate_write_memory_binary" then
    write_memory_binary arguments
  else if tool_name == "ultimate_reset_machine" then
    call "PUT" "machine:reset" None None
  else if tool_name == "ultimate_power_off" then
    call "PUT" "machine:poweroff" None None
  else if tool_name == "ultimate_get_machine_info" then
    call "GET" "machine:info" None None
  else if tool_name == "ultimate_get_machine_state" then
    call "GET" "machine:state" None None
  else if tool_name == "ultimate_soft_reset" then
    call "PUT" "runners:load_prg" (Some [("file", JStr "")]) None
  else if tool_name == "ultimate_reboot_device" then
    call "PUT" "machine:reboot" None None
  else if tool_name == "ultimate_set_drive_mode" then
    drive <- getitem "drive" arguments ;;
    mode <- getitem "mode" arguments ;;
    call "PUT" ("drives/" +:+ str L drive +:+ ":set_mode")
         (Some [("mode", mode)]) None
  else if tool_name == "ultimate_load_drive_rom" then
    drive <- getitem "drive" arguments ;;
    file_path <- getitem "file" arguments ;;
    call "PUT" ("drives/" +:+ str L drive +:+ ":load_rom")
         (Some [("file", file_path)]) None
  else if tool_name == "ultimate_get_file_info" then
    path <- getitem "path" arguments ;;
    call "GET" ("files/" +:+ str L path +:+ ":info") None None
  else if tool_name == "ultimate_create_dnp" then
    path <- getitem "path" arguments ;;
    tracks <- getitem "tracks" arguments ;;
    diskname <- optional "diskname" arguments ;;
    call "PUT" ("files/" +:+ str L path +:+ ":create_dnp")
         (Some (("tracks", tracks) :: diskname)) None
  else if tool_name == "ultimate_start_stream" then
    stream <- getitem "stream" arguments ;;
    ip <- getitem "ip" arguments ;;
    call "PUT" ("streams/" +:+ str L stream +:+ ":start") (Some [("ip", ip)]) None
  else if tool_name == "ultimate_stop_stream" then
    stream <- getitem "stream" arguments ;;
    call "PUT" ("streams/" +:+ str L stream +:+ ":stop") None None
  else if tool_name == "ultimate_bulk_config_update" then
    config <- getitem "config" arguments ;;
    call "POST" "configs" None (Some config)
  else
    ret (Fall (errors_result ("Unknown tool: " +:+ str L tool_name))).

(** The characters of a string, as iterating over it yields them. *)
Fixpoint chars (s : string) : list string :=
  match s with
  | EmptyString => []
  | String c r => String c EmptyString :: chars r
  end.

(** [', '.join(v)]: [v] must be iterable and yield strings only. *)
Definition join_errors (v : json) : M string :=
  match v with
  | JArr l =>
      if forallb (fun x => match x with JStr _ => true | _ => false end) l
      then ret (join ", " (omap (fun x => match x with JStr s => Some s | _ => None end) l))
      else raise (Exn TypeError (fault_msg L "join" v))
  | JStr s => ret (join ", " (chars s))
  | JObj kv => ret (join ", " (map fst kv))
  | _ => raise (Exn TypeError (fault_msg L "join" v))
  end.

(** The rendering at the end of [call_tool].  A [result] that is not a
    dict (the device may answer any JSON document) fails one of
    ["errors" in result], [result["errors"]] and [result.items()]. *)
Definition render (result : json) : M string :=
  match result with
  | JObj kv =>
      if has_key "errors" kv && truthy (get "errors" kv) then
        errors <- join_errors (get "errors" kv) ;;
        ret ("Errors: " +:+ errors)
      else
        let result_copy :=
          List.filter (fun kv => negb (String.eqb (fst kv) "errors")) kv in
        ret (json_dumps L (JObj result_copy))
  | JArr l =>
      if existsb (fun x => match x with JStr s => String.eqb s "errors" | _ => false end) l
      then raise (Exn TypeError (fault_msg L "getitem" result))
      else raise (Exn AttributeError (fault_msg L "items" result))
  | JStr s =>
      if contains "errors" s
      then raise (Exn TypeError (fault_msg L "getitem" result))
      else raise (Exn AttributeError (fault_msg L "items" result))
  | _ => raise (Exn TypeError (fault_msg L "in" result))
  end.

(** [call_tool]: whatever the body or the rendering raises is turned
    into a text result. *)
Definition call_tool (tool_name : json) (arguments : json)
  : State -> CallToolResult * State :=
  fun st =>
    match (o <- call_tool_body tool_name arguments ;;
           match o with
           | Return r => ret r
           | Fall result =>
               content <- render result ;;
               ret (text_result content)
           end) st with
    | (Ok r, st') => (r, st')
    | (Raise e, st') => (text_result ("Error: " +:+ exn_msg e), st')
    end.

End WithWorld.

(** ** Notions the properties below are stated with *)

(** The dispatched operation produced an error list: the test the
    rendering applies to [result]. *)
Definition has_errors (result : json) : bool :=
  match result with
  | JObj kv => has_key "errors" kv && truthy (get "errors" kv)
  | _ => false
  end.


(** The connection is either absent, or a base URL that starts with
    [http] and ends without a slash, together with its [/v1] API base. *)
Definition connection_ok (h : Handler) : Prop :=
  (base_url h = None /\ api_base h = None) \/
  exists b, base_url h = Some b /\ api_base h = Some (b +:+ "/v1") /\
            startswith "http" b = true /\ endswith_slash b = false.

(** What can happen to a handler: [set_base_url], or a tool call (among
    them [ultimate_set_connection]). *)
Inductive operation : Type :=
| Configure (url : string)
| CallTool (tool_name arguments : json).

Definition perform (L : Lib) (W : World) (op : operation) (st : State) : State :=
  match op with
  | Configure url => mkState (set_base_url url (handler st)) (issued st)
  | CallTool tool_name arguments => snd (call_tool L W tool_name arguments st)
  end.

Definition run (L : Lib) (W : World) (ops : list operation) (st : State) : State :=
  fold_left (fun st op => perform L W op st) ops st.

(** The endpoint [set_base_url] settles on. *)
Definition normalized (url : string) : string :=
  rstrip "/" (if startswith "http" url then url else "http://" +:+ url).

(** The request [make_request] hands to the client. *)
Definition request_of (h : Handler) (method endpoint : string)
    (params : option dict) (data : option json) : Request :=
  mkRequest method (str_opt (api_base h) +:+ "/" +:+ endpoint) params
            (match data with Some j => JsonBody j | None => NoBody end)
            None None.

Definition tool_names : list string := map name get_tools.

(** [spec I Q c]: the computation [c] keeps the property [I] of the
    connection, and a value it returns satisfies [Q]. *)
Definition spec {A} (I : Handler -> Prop) (Q : A -> Prop) (c : M A) : Prop :=
  forall st, I (handler st) ->
    I (handler (snd (c st))) /\ forall a, fst (c st) = Ok a -> Q a.

Definition any {A} : A -> Prop := fun _ => True.

(** A computation that leaves the state as it found it. *)
Definition quiet {A} (c : M A) : Prop := forall st, snd (c st) = st.

(** The outcomes the body of [call_tool] may end with: a result it
    returns itself is never flagged as an error. *)
Definition unflagged (o : outcome) : Prop :=
  match o with
  | Return r => isError r = false
  | Fall _ => True
  end.

Definition source_unflagged {A} (s : outcome + A) : Prop :=
  match s with
  | inl o => unflagged o
  | inr _ => True
  end.

End Ultimate.

(* ===================================================================== *)
(** * class WebServer                                                     *)
(* ===================================================================== *)

Module Web.
Import Py Ultimate.

(** [starlette.responses.JSONResponse]; the status defaults to 200. *)
Record JSONResponse : Type := mkJSONResponse {
  rsp_content : json;
  status_code : Z
}.
Definition json_response (content : json) : JSONResponse :=
  mkJSONResponse content 200.
Definition error_response (status : Z) (msg : string) : JSONResponse :=
  mkJSONResponse (JObj [("error", JStr msg)]) status.

(** The two memory streams one call of [handle_sse] creates, with the
    session id it was called with.  A stream is the list of the items
    sent and not yet received, oldest first. *)
Record Connection : Type := mkConnection {
  session_id : string;
  read_stream : list string;
  write_stream : list string
}.

(** The server: [self.sessions] maps a session id to the connection
    whose streams the entry holds; [device] is the shared handler with
    the requests issued so far. *)
Record Server : Type := mkServer {
  sessions : gmap string nat;
  connections : gmap nat Connection;
  opened : nat;
  device : State
}.

Definition newline : string := String (ascii_of_nat 10) EmptyString.

(** An event of the push stream. *)
Record Event : Type := mkEvent { event : string; data : string }.

(** [handle_sse], past the import of [sse_handler], a name the [mcp]
    package does not define: it registers fresh streams under the
    session id of the query (or the generated one) and answers with the
    event stream, whose first event announces the message endpoint. *)
Definition handle_sse (query_session_id : option string) (uuid : string)
    (srv : Server) : Event * nat * Server :=
  let sid := default uuid query_session_id in
  let c := opened srv in
  (mkEvent "endpoint" ("/messages?session_id=" +:+ sid), c,
   mkServer (<[sid := c]> (sessions srv))
            (<[c := mkConnection sid [] []]> (connections srv))
            (S c) (device srv)).

(** The [finally] of [process_messages], run when the message loop of
    connection [c] ends. *)
Definition finish (c : nat) (srv : Server) : Server :=
  match connections srv !! c with
  | Some conn =>
      mkServer (delete (session_id conn) (sessions srv))
               (connections srv) (opened srv) (device srv)
  | None => srv
  end.

(** [handle_messages]: [query_session_id] is the [session_id] query
    parameter and [payload] what [await request.json()] yields. *)
Definition handle_messages (L : Lib) (query_session_id : option string)
    (payload : result json) (srv : Server) : JSONResponse * Server :=
  if negb (opt_truthy query_session_id) then
    (error_response 400 "Missing session_id query parameter", srv)
  else
    let sid := default "" query_session_id in
    match sessions srv !! sid with
    | None => (error_response 404 "Session not found or closed", srv)
    | Some c =>
        match payload with
        | Raise e => (error_response 500 (exn_msg e), srv)
        | Ok (JObj message_data) =>
            if negb (has_key "jsonrpc" message_data) then
              (error_response 400 "Missing jsonrpc field", srv)
            else
              let message_json :=
                json_dumps_line L (JObj message_data) +:+ newline in
              match connections srv !! c with
              | Some conn =>
                  (json_response (JObj [("status", JStr "accepted")]),
                   mkServer (sessions srv)
                     (<[c := mkConnection (session_id conn)
                               (read_stream conn ++ [message_json])
                               (write_stream conn)]> (connections srv))
                     (opened srv) (device srv))
              | None =>      (* no entry outlives its streams: not reached *)
                  (error_response 500 "", srv)
              end
        | Ok _ => (error_response 400 "Message must be a JSON object", srv)
        end
    end.

Section WithWorld.
Context (L : Lib) (W : World).

Definition rpc_result (msg_id result : json) : json :=
  JObj [("jsonrpc", JStr "2.0"); ("id", msg_id); ("result", result)].
Definition rpc_error (msg_id : json) (code : Z) (message : string) : json :=
  JObj [("jsonrpc", JStr "2.0"); ("id", msg_id);
        ("error", JObj [("code", JNum code); ("message", JStr message)])].

(** [write_stream_send.send(json.dumps(response) + '\n')] *)
Definition emit (response : json) : M (list string) :=
  ret [json_dumps_line L response +:+ newline].

Definition initialize_result : json :=
  JObj [("protocolVersion", JStr "2024-11-05");
        ("capabilities", JObj [("tools", JObj [])]);
        ("serverInfo", JObj [("name", JStr "ultimate64-mcp-sse");
                             ("version", JStr "1.0.0")])].

Definition tools_dict : list json :=
  map (fun tool => JObj [("name", JStr (name tool));
                         ("description", JStr (description tool));
                         ("inputSchema", inputSchema tool)]) get_tools.

(** The body of the loop of [process_messages] for one line of the read
    stream; the value is what it sends to the write stream.  Both
    [except] clauses only log. *)
Definition process_message (message_line : string) : M (list string) :=
  if str_is_empty message_line || str_is_empty (strip message_line) then ret []
  else
    try_except
      (message_data <- lift (json_loads L (strip message_line)) ;;
       method <- get_m L "method" message_data ;;
       msg_id <- get_m L "id" message_data ;;
       (* the log lines read the parameters of a tool call *)
       _ <- (if truthy method && (method == "tools/call") then
               params <- get_or_m L "params" (JObj []) message_data ;;
               _ <- get_or_m L "name" (JStr "unknown") params ;;
               _ <- get_or_m L "arguments" (JObj []) params ;;
               ret tt
             else ret tt) ;;
       if method == "initialize" then
         emit (rpc_result msg_id initialize_result)
       else if method == "tools/list" then
         emit (rpc_result msg_id (JObj [("tools", JArr tools_dict)]))
       else if method == "tools/call" then
         params <- get_or_m L "params" (JObj []) message_data ;;
         tool_name <- get_m L "name" params ;;
         arguments <- get_or_m L "arguments" (JObj []) params ;;
         response <-
           try_except
             (result <- (fun st => let (r, st') := call_tool L W tool_name arguments st
                                   in (Ok r, st')) ;;
              let content :=
                map (fun item => JObj [("type", JStr "text");
                                       ("text", JStr (text item))])
                    (content result) in
              ret (rpc_result msg_id (JObj [("content", JArr content)])))
             (fun e => ret (rpc_error msg_id (-32603)
                              ("Internal error: " +:+ exn_msg e))) ;;
         emit response
       else
         notification <-
           (if truthy method then
              m <- as_str L "startswith" method ;;
              ret (startswith "notifications/" m)
            else ret false) ;;
         if notification then ret []
         else
           emit (rpc_error msg_id (-32601)
                   ("Method not found: " +:+ str L method)))
      (fun _ => ret []).

(** One turn of the message loop of connection [c]: the oldest line of
    its read stream is processed and the answers join its write
    stream. *)
Definition step (c : nat) (srv : Server) : Server :=
  match connections srv !! c with
  | Some conn =>
      match read_stream conn with
      | [] => srv
      | message_line :: rest =>
          let (r, dev) := process_message message_line (device srv) in
          let sent := match r with Ok l => l | Raise _ => [] end in
          mkServer (sessions srv)
            (<[c := mkConnection (session_id conn) rest
                      (write_stream conn ++ sent)]> (connections srv))
            (opened srv) dev
      end
  | None => srv
  end.

(** The relay of [sse_generator]: the oldest item of the write stream
    becomes a [message] event, without its trailing newlines. *)
Definition relay (c : nat) (srv : Server) : option Event * Server :=
  match connections srv !! c with
  | Some conn =>
      match write_stream conn with
      | [] => (None, srv)
      | message :: rest =>
          (Some (mkEvent "message" (rstrip newline message)),
           mkServer (sessions srv)
             (<[c := mkConnection (session_id conn) (read_stream conn) rest]>
                (connections srv))
             (opened srv) (device srv))
      end
  | None => (None, srv)
  end.

(** ** The direct upload endpoint *)

(** A field of a submitted form: plain text, or an uploaded file with
    the outcome of reading it. *)
Inductive form_field : Type :=
| FormText (value : string)
| FormFile (read : result (list byte)).

(** The request as [handle_upload_prg] reads it. *)
Record UploadRequest : Type := mkUploadRequest {
  client_host : option string;                      (* request.client *)
  content_type : string;                            (* content-type *)
  form : result (list (string * form_field));       (* await request.form() *)
  raw_body : result (list byte);                    (* await request.body() *)
  json_body : result json                           (* await request.json() *)
}.

Fixpoint form_lookup (k : string) (f : list (string * form_field))
  : option form_field :=
  match f with
  | [] => None
  | (k', v) :: r => if String.eqb k k' then Some v else form_lookup k r
  end.

(** The diagnostic load address: the first two bytes, little-endian. *)
Definition load_addr (prg_data : list byte) : Z :=
  match prg_data with
  | b0 :: b1 :: _ =>
      Z.lor (Z.of_N (Byte.to_N b0)) (Z.shiftl (Z.of_N (Byte.to_N b1)) 8)
  | _ => 0
  end.

(** The first part of [handle_upload_prg]: the client address for the
    log, then the payload according to the content type.  It ends with
    a response of its own ([inl]) or with the decoded payload. *)
Definition upload_payload (request : UploadRequest)
  : M (JSONResponse + list byte) :=
  _ <- match client_host request with
       | Some host => ret host
       | None => raise (Exn AttributeError (fault_msg L "host" JNull))
       end ;;
  let content_type := content_type request in
  if contains "multipart/form-data" content_type then
    form <- lift (form request) ;;
    match form_lookup "file" form with
    | None => ret (inl (error_response 400 "Missing 'file' field"))
    | Some (FormFile read) =>
        prg_data <- lift read ;;
        ret (inr prg_data)
    | Some (FormText value) =>
        raise (Exn AttributeError (fault_msg L "read" (JStr value)))
    end
  else if contains "application/octet-stream" content_type
          || contains "application/x-binary" content_type then
    prg_data <- lift (raw_body request) ;;
    ret (inr prg_data)
  else if contains "application/json" content_type then
    data <- lift (json_body request) ;;
    present <- contains_key L "prg_data_base64" data ;;
    if present then
      encoded <- getitem L "prg_data_base64" data ;;
      prg_data <-
        match encoded with
        | JStr e => lift (b64decode L e)
        | _ => raise (Exn TypeError (fault_msg L "b64decode" encoded))
        end ;;
      ret (inr prg_data)
    else ret (inl (error_response 400 "Missing 'prg_data_base64' field"))
  else
    ret (inl (error_response 400
      "Unsupported content type. Use multipart/form-data, application/octet-stream, or application/json with base64")).

(** [handle_upload_prg] *)
Definition handle_upload_prg (request : UploadRequest)
  : State -> JSONResponse * State :=
  fun st =>
    match
      (payload <- upload_payload request ;;
       match payload with
       | inl response => ret response
       | inr prg_data =>
           if size prg_data =? 0 then
             ret (error_response 400 "No PRG data provided")
           else
             h <- get_handler ;;
             if negb (opt_truthy (api_base h)) then
               ret (mkJSONResponse
                      (JObj [("success", JBool false);
                             ("error", JStr not_configured)]) 400)
             else
               let url := str_opt (api_base h) +:+ "/runners:run_prg" in
               response <- send W (mkRequest "POST" url None (RawBody prg_data)
                                     octet_stream None) ;;
               if rs_status response =? 200 then
                 response_data <-
                   try_except (lift (rs_json response))
                     (fun _ => ret (JObj [("message", JStr "Program started")])) ;;
                 ret (json_response
                        (JObj [("success", JBool true);
                               ("message", JStr ("Running PRG ("
                                  +:+ pretty (size prg_data) +:+ " bytes)"));
                               ("size_bytes", JNum (size prg_data));
                               ("response", response_data)]))
               else
                 body <- lift (rs_text response) ;;
                 ret (mkJSONResponse
                        (JObj [("success", JBool false);
                               ("error", JStr ("Failed to run PRG: HTTP "
                                  +:+ pretty (rs_status response)));
                               ("details", JStr body)])
                        (rs_status response))
       end) st
    with
    | (Ok response, st') => (response, st')
    | (Raise e, st') =>
        if is_binascii e then
          (error_response 400 ("Invalid base64 data: " +:+ exn_msg e), st')
        else (error_response 500 (exn_msg e), st')
    end.

End WithWorld.

(** ** Notions the properties below are stated with *)

Definition no_sessions (dev : State) : Server := mkServer ∅ ∅ 0 dev.


End Web.

(* ===================================================================== *)
(** * Sample libraries and worlds                                         *)
(* ===================================================================== *)

Module Sample.
Import Py Ultimate Web.

(** A library whose dumps are a fixed text and whose parser rejects
    everything. *)
Definition plain_lib : Lib :=
  mkLib (fun _ => "{}") (fun _ => "{}")
        (fun _ => Raise (Exn JSONDecodeError "Expecting value"))
        (fun _ => Ok []) (fun _ => Ok [])
        (fun _ => "") (fun _ _ => "").

(** No file exists and no host can be reached. *)
Definition offline : World :=
  mkWorld (fun _ => Ok false)
          (fun _ => Raise (Exn OtherError "No such file or directory"))
          (fun _ _ => Raise (Exn ClientError "Cannot connect to host")).

(** A device that answers every request the same way. *)
Definition answering (r : Response) : World :=
  mkWorld (fun _ => Ok false)
          (fun _ => Raise (Exn OtherError "No such file or directory"))
          (fun _ _ => Ok r).

Definition no_connection : Handler := mkHandler None None.
Definition fresh : State := mkState no_connection [].
Definition configured : State :=
  mkState (set_base_url "192.168.1.64" no_connection) [].

Definition no_content : Response :=
  mkResponse 204 None (Raise (Exn OtherError "no body")) (Ok []) (Ok "").
Definition not_found_answer : Response :=
  mkResponse 404 (Some "text/plain")
             (Raise (Exn JSONDecodeError "Expecting value")) (Ok []) (Ok "Not Found").

Definition read_memory_tool : Tool := nth 23 get_tools (mkTool "" "" JNull).

(** A server with one connection, opened with the given session id. *)
Definition one_session (sid : string) : Server :=
  snd (handle_sse (Some sid) "generated" (no_sessions fresh)).

Definition ping : result json :=
  Ok (JObj [("jsonrpc", JStr "2.0"); ("id", JNum 1); ("method", JStr "ping")]).

(** An upload of no bytes at all, as an octet stream. *)
Definition empty_upload : UploadRequest :=
  mkUploadRequest (Some "127.0.0.1") "application/octet-stream"
    (Raise (Exn OtherError "not a form")) (Ok [])
    (Raise (Exn JSONDecodeError "Expecting value")).

(** A library that reads every line as the same message. *)
Definition reading (message : json) : Lib :=
  mkLib (fun _ => "{}") (fun _ => "{}") (fun _ => Ok message)
        (fun _ => Ok []) (fun _ => Ok [])
        (fun _ => "") (fun _ _ => "").

End Sample.

(* ===================================================================== *)
(** * create_mcp_server                                                   *)
(* ===================================================================== *)

Module Stdio.
Import Py Ultimate.

(** [handle_list_tools] *)
Definition handle_list_tools : list Tool := get_tools.

(** [handle_call_tool]: the content of the handler's result. *)
Definition handle_call_tool (L : Lib) (W : World) (name arguments : json)
  : State -> list TextContent * State :=
  fun st =>
    let (r, st') := call_tool L W name arguments st in (content r, st').

End Stdio.

(* ===================================================================== *)
(** * Effects of computations and of the server's operations              *)
(* ===================================================================== *)

Module Effects.
Import Py Ultimate Web.


(** [sends h P n c]: started with the connection [h], the computation
    [c] leaves it as it is, keeps the requests issued before and adds at
    most [n] requests, each of which satisfies [P]. *)
Definition sends {A} (h : Handler) (P : Request -> Prop) (n : nat) (c : M A)
  : Prop :=
  forall st, handler st = h ->
    handler (snd (c st)) = h /\
    exists new, issued (snd (c st)) = issued st ++ new /\
                (List.length new <= n)%nat /\ Forall P new.

(** A request addressed below the API base of [h]. *)
Definition to_device (h : Handler) (rq : Request) : Prop :=
  startswith (str_opt (api_base h) +:+ "/") (rq_url rq) = true.

(** What [make_request] may send: one request with a connection, none
    without. *)
Definition reach (h : Handler) : nat :=
  if opt_truthy (api_base h) then 1%nat else 0%nat.

(** The number of requests a tool may hand to the client. *)
Definition request_bound (h : Handler) (tool_name : json) : nat :=
  if tool_name == "ultimate_run_prg_binary" then 2%nat
  else if (tool_name == "ultimate_play_sid")
          || (tool_name == "ultimate_write_memory_binary") then 1%nat
  else reach h.

(** What can be said of each of them: the requests of
    [ultimate_run_prg_binary] wait 60 seconds at most; those of the
    other tools go to the device and set no timeout. *)
Definition tool_request (h : Handler) (tool_name : json) (rq : Request) : Prop :=
  if tool_name == "ultimate_run_prg_binary" then rq_timeout rq = Some 60
  else to_device h rq /\ rq_timeout rq = None.

(** A result made of one text item and not flagged. *)
Definition textual (o : outcome) : Prop :=
  match o with
  | Return r => exists s, r = text_result s
  | Fall _ => True
  end.

Definition source_textual {A} (s : outcome + A) : Prop :=
  match s with
  | inl o => textual o
  | inr _ => True
  end.

(** Every registry entry holds the streams of a connection that was
    opened with that session id, and connections are numbered below
    [opened]. *)
Definition registry_ok (srv : Server) : Prop :=
  (forall sid c, sessions srv !! sid = Some c ->
     exists conn, connections srv !! c = Some conn /\ session_id conn = sid) /\
  (forall c conn, connections srv !! c = Some conn -> (c < opened srv)%nat).

(** What happens to a server. *)
Inductive action : Type :=
| Connect (query_session_id : option string) (uuid : string)
| Submit (query_session_id : option string) (payload : result json)
| Deliver (c : nat)
| Forward (c : nat)
| Close (c : nat)
| Upload (request : UploadRequest).

Definition act (L : Lib) (W : World) (a : action) (srv : Server) : Server :=
  match a with
  | Connect q uuid => snd (handle_sse q uuid srv)
  | Submit q payload => snd (handle_messages L q payload srv)
  | Deliver c => step L W c srv
  | Forward c => snd (relay c srv)
  | Close c => finish c srv
  | Upload request =>
      mkServer (sessions srv) (connections srv) (opened srv)
               (snd (handle_upload_prg L W request (device srv)))
  end.

Definition acts (L : Lib) (W : World) (l : list action) (srv : Server) : Server :=
  fold_left (fun srv a => act L W a srv) l srv.

(** The request that uploads a program to the device. *)
Definition run_prg_request (h : Handler) (prg_data : list byte)
    (timeout : option Z) : Request :=
  mkRequest "POST" (str_opt (api_base h) +:+ "/runners:run_prg") None
            (RawBody prg_data) octet_stream timeout.

(** The line the message loop sends for a response. *)
Definition line_of (L : Lib) (response : json) : string :=
  json_dumps_line L response +:+ newline.

(** What the loop may send for one line: at most one dumped response. *)
Definition one_response (L : Lib) (sent : list string) : Prop :=
  (List.length sent <= 1)%nat /\
  Forall (fun l => exists response, l = line_of L response) sent.

End Effects.

(* ===================================================================== *)
(** * More sample libraries, requests and servers                         *)
(* ===================================================================== *)

Module Cases.
Import Py Ultimate Web Sample Effects.

(** A library whose base64 decoders yield the given bytes. *)
Definition decoding (raw : list byte) : Lib :=
  mkLib (fun _ => "{}") (fun _ => "{}")
        (fun _ => Raise (Exn JSONDecodeError "Expecting value"))
        (fun _ => Ok raw) (fun _ => Ok raw)
        (fun _ => "") (fun _ _ => "").

(** A library whose base64 decoders reject their input. *)
Definition rejecting : Lib :=
  mkLib (fun _ => "{}") (fun _ => "{}")
        (fun _ => Raise (Exn JSONDecodeError "Expecting value"))
        (fun _ => Raise (Exn BinasciiError "Incorrect padding"))
        (fun _ => Raise (Exn BinasciiError "Incorrect padding"))
        (fun _ => "") (fun _ _ => "").

(** An upload of the given bytes as an octet stream. *)
Definition octet_upload (raw : list byte) : UploadRequest :=
  mkUploadRequest (Some "127.0.0.1") "application/octet-stream"
    (Raise (Exn OtherError "not a form")) (Ok raw)
    (Raise (Exn JSONDecodeError "Expecting value")).

(** Two connections opened one after the other with the same id. *)
Definition two_connections (sid : string) : Server :=
  snd (handle_sse (Some sid) "generated" (one_session sid)).

Definition program : list byte := [x01; x08; x0b; x08].

End Cases.

(* ===================================================================== *)
(** * Properties of the strings                                           *)
(* ===================================================================== *)

Module StringFacts.
Import Py.

Lemma rstrip_with_last (p : ascii -> bool) (s : string) (c : ascii) :
  last_char (rstrip_with p s) = Some c -> p c = false.
Proof.
  induction s as [|d r IH]; simpl; [discriminate|].
  destruct (rstrip_with p r) as [|e r'] eqn:Hr.
  - destruct (p d) eqn:Hd; simpl; [discriminate|].
    intros [= <-]. exact Hd.
  - rewrite andb_false_r. simpl. simpl in IH. exact IH.
Qed.


Lemma rstrip_no_slash (s : string) : endswith_slash (rstrip "/" s) = false.
Proof.
  unfold endswith_slash, rstrip.
  destruct (last_char _) as [c|] eqn:E; [|reflexivity].
  apply rstrip_with_last in E. simpl in E.
  rewrite orb_false_r in E. exact E.
Qed.


Lemma rstrip_with_keep (p : ascii -> bool) (c : ascii) (r : string) :
  p c = false -> rstrip_with p (String c r) = String c (rstrip_with p r).
Proof. intros H. simpl. rewrite H. reflexivity. Qed.

(** Stripping slashes keeps a leading [http]: none of its four
    characters is a slash. *)
Lemma rstrip_keeps_http (s : string) :
  startswith "http" s = true -> startswith "http" (rstrip "/" s) = true.
Proof.
  unfold startswith, rstrip.
  destruct s as [|c1 [|c2 [|c3 [|c4 r]]]]; intros H;
    cbn [String.prefix] in H;
    repeat match type of H with
           | context [Ascii.ascii_dec ?a ?b] =>
               destruct (Ascii.ascii_dec a b) as [<-|]
           end; try discriminate.
  rewrite !rstrip_with_keep by reflexivity.
  cbn [String.prefix].
  repeat match goal with
         | |- context [Ascii.ascii_dec ?a ?a] =>
             destruct (Ascii.ascii_dec a a); [|congruence]
         end.
  destruct (rstrip_with _ r); reflexivity.
Qed.

Lemma prefix_refl (s : string) : String.prefix s s = true.
Proof.
  induction s as [|c r IH]; simpl; [reflexivity|].
  destruct (Ascii.ascii_dec c c); [exact IH|congruence].
Qed.

Lemma prefix_app (p s : string) : String.prefix p (p +:+ s) = true.
Proof.
  induction p as [|c r IH]; simpl; [destruct s; reflexivity|].
  destruct (Ascii.ascii_dec c c); [exact IH|congruence].
Qed.

(** A string occurs in whatever is built around it. *)
Lemma contains_app (p a b : string) : contains p (a +:+ p +:+ b) = true.
Proof.
  induction a as [|c r IH].
  - change (EmptyString +:+ p +:+ b) with (p +:+ b).
    pose proof (prefix_app p b) as H.
    destruct (p +:+ b); cbn [contains]; rewrite H; reflexivity.
  - change (String c r +:+ p +:+ b) with (String c (r +:+ p +:+ b)).
    cbn [contains]. rewrite IH. apply orb_true_r.
Qed.

Lemma contains_suffix (p a : string) : contains p (a +:+ p) = true.
Proof.
  pose proof (contains_app p a EmptyString) as H.
  replace (p +:+ EmptyString) with p in H; [exact H|].
  clear. induction p as [|c r IH]; [reflexivity|].
  change (String c r +:+ EmptyString) with (String c (r +:+ EmptyString)).
  rewrite <- IH. reflexivity.
Qed.

End StringFacts.

(* ===================================================================== *)
(** * Properties of the handler                                           *)
(* ===================================================================== *)

Module UltimateFacts.
Import Py Ultimate Sample StringFacts.

(** Unfold the plumbing of [M] and reduce the projections. *)
Ltac munfold :=
  unfold bind, ret, raise, lift, try_except, get_handler, put_handler, send in *;
  cbn [handler issued fst snd negb] in *.

(** ** The connection *)

Example set_base_url_host :
  set_base_url "192.168.1.64" no_connection
  = mkHandler (Some "http://192.168.1.64") (Some "http://192.168.1.64/v1").
Proof. reflexivity. Qed.

Example set_base_url_slashes :
  set_base_url "https://c64.local:8080//" no_connection
  = mkHandler (Some "https://c64.local:8080") (Some "https://c64.local:8080/v1").
Proof. reflexivity. Qed.

(** The scheme counts as present as soon as the host starts with [http]. *)
Example set_base_url_http_host :
  set_base_url "httpbox.local" no_connection
  = mkHandler (Some "httpbox.local") (Some "httpbox.local/v1").
Proof. reflexivity. Qed.

Example init_from_env :
  init None (Some "c64.local")
  = mkHandler (Some "http://c64.local") (Some "http://c64.local/v1").
Proof. reflexivity. Qed.

Example init_without_host : init None None = no_connection.
Proof. reflexivity. Qed.

Lemma set_base_url_normalized (url : string) (h : Handler) :
  set_base_url url h =
  mkHandler (Some (normalized url)) (Some (normalized url +:+ "/v1")).
Proof.
  unfold set_base_url, normalized.
  destruct (startswith "http" url); reflexivity.
Qed.

Lemma normalized_http (url : string) : startswith "http" (normalized url) = true.
Proof.
  unfold normalized. destruct (startswith "http" url) eqn:E.
  - apply rstrip_keeps_http, E.
  - apply rstrip_keeps_http. reflexivity.
Qed.





(** ** Dispatch on the tool name *)

Example catalog_size : List.length get_tools = 39%nat.
Proof. reflexivity. Qed.

Example catalog_names_distinct : NoDup tool_names.
Proof. apply NoDup_ListNoDup. vm_compute. repeat constructor; cbn; intuition discriminate. Qed.

Example version_not_configured :
  call_tool plain_lib offline (JStr "ultimate_version") (JObj []) fresh
  = (text_result ("Errors: " +:+ not_configured), fresh).
Proof. reflexivity. Qed.

Example set_connection_with_port :
  handler (snd (call_tool plain_lib offline (JStr "ultimate_set_connection")
                  (JObj [("hostname", JStr "c64.local"); ("port", JNum 8080)]) fresh))
  = mkHandler (Some "http://c64.local:8080") (Some "http://c64.local:8080/v1").
Proof. reflexivity. Qed.

Example run_prg_binary_without_source :
  call_tool_body plain_lib offline (JStr "ultimate_run_prg_binary") (JObj []) configured
  = (Ok (early plain_lib
           "One of 'file_path', 'prg_data_base64', or 'url' must be provided"),
     configured).
Proof. reflexivity. Qed.

Lemma not_a_tool (tool_name n : string) :
  ~ In tool_name tool_names ->
  existsb (String.eqb n) tool_names = true ->
  String.eqb tool_name n = false.
Proof.
  intros Hnot Hn. apply existsb_exists in Hn as (m & Hm & E).
  apply String.eqb_eq in E. subst m.
  apply String.eqb_neq. intros ->. exact (Hnot Hm).
Qed.

(** Reduce the comparisons of [call_tool_body] and nothing else. *)
Ltac dispatch :=
  cbv beta iota delta [call_tool_body is_str String.eqb Ascii.eqb Bool.eqb andb].

(** C4. For a name outside the catalog [call_tool] does not raise: its
    body ends in the unknown-tool error, and the result is the text
    [Errors: Unknown tool: <name>], which contains the name.  Nothing is
    sent and the connection stays as it is. *)
Theorem call_tool_unknown (L : Lib) (W : World)
    (tool_name : string) (arguments : json) (st : State) :
  ~ In tool_name (map name get_tools) ->
  call_tool_body L W (JStr tool_name) arguments st
    = (Ok (Fall (errors_result ("Unknown tool: " +:+ tool_name))), st) /\
  call_tool L W (JStr tool_name) arguments st
    = (text_result ("Errors: Unknown tool: " +:+ tool_name), st) /\
  contains tool_name ("Errors: Unknown tool: " +:+ tool_name) = true.
Proof.
  intros Hnot.
  assert (Hbody : call_tool_body L W (JStr tool_name) arguments st
                  = (Ok (Fall (errors_result ("Unknown tool: " +:+ tool_name))), st)).
  { unfold call_tool_body, is_str.
    rewrite !(not_a_tool tool_name _ Hnot) by (vm_compute; reflexivity).
    reflexivity. }
  split; [exact Hbody|]. split.
  - unfold call_tool, bind. rewrite Hbody. reflexivity.
  - apply contains_suffix.
Qed.

Lemma call_tool_unknown_witness :
  call_tool plain_lib offline (JStr "ultimate_fly") (JObj []) fresh
    = (text_result "Errors: Unknown tool: ultimate_fly", fresh).
Proof.
  apply (call_tool_unknown plain_lib offline "ultimate_fly" (JObj []) fresh).
  vm_compute. intuition discriminate.
Defined.

(** ** Missing required arguments *)

(** C2. A registered tool called with an argument bag that lacks one of
    its required arguments does not raise: the reading of the first
    missing one raises [KeyError], which [call_tool] turns into the text
    [Error: '<field>'].  The state is the one the call started from:
    no request is issued and the connection is untouched. *)
Theorem call_tool_missing_required (L : Lib) (W : World)
    (t : Tool) (arguments : dict) (st : State) :
  In t get_tools ->
  (exists k, In k (required t) /\ lookup_key k arguments = None) ->
  exists k,
    In k (required t) /\ lookup_key k arguments = None /\
    call_tool L W (JStr (name t)) (JObj arguments) st
      = (text_result ("Error: '" +:+ k +:+ "'"), st) /\
    contains k ("Error: '" +:+ k +:+ "'") = true.
Proof.
  intros Hin (k & Hk & Hmiss).
  assert (Hsub : forall k', contains k' ("Error: '" +:+ k' +:+ "'") = true)
    by (intros k'; apply (contains_app k' "Error: '" "'")).
  unfold get_tools in Hin. cbn [In] in Hin.
  repeat (destruct Hin as [<-|Hin]); [..|contradiction];
    vm_compute in Hk; try contradiction;
    unfold call_tool; cbn [name]; dispatch;
    unfold set_connection, play_sid, write_memory_binary;
    unfold bind at 1; unfold bind at 1.
  all: repeat (destruct Hk as [<-|Hk]; [|]); try contradiction.
  all: repeat
    match goal with
    | |- context [getitem ?L ?k0 (JObj ?a)] =>
        unfold getitem at 1;
        let E := fresh "E" in
        destruct (lookup_key k0 a) eqn:E; munfold;
        [ try congruence
        | exists k0; split; [vm_compute; tauto|];
          split; [exact E|]; split; [reflexivity|apply Hsub] ]
    end.
Qed.

Lemma call_tool_missing_required_witness :
  call_tool plain_lib offline (JStr "ultimate_read_memory")
            (JObj [("length", JNum 1)]) configured
    = (text_result "Error: 'address'", configured).
Proof.
  destruct (call_tool_missing_required plain_lib offline read_memory_tool
              [("length", JNum 1)] configured) as (k & Hk & _ & Hcall & _).
  - vm_compute. tauto.
  - exists "address". split; [vm_compute; tauto|reflexivity].
  - vm_compute in Hk. destruct Hk as [<-|[]]. exact Hcall.
Defined.

(** ** Requests of a tool call *)

(** With a connection, [make_request] issues one request, whatever
    comes back. *)
Lemma make_request_issues (W : World) (method endpoint : string)
    (params : option dict) (data : option json) (st : State) :
  opt_truthy (api_base (handler st)) = true ->
  snd (make_request W method endpoint params data st)
    = mkState (handler st)
        (issued st ++ [request_of (handler st) method endpoint params data]).
Proof.
  intros Hc. destruct st as [h log]. unfold make_request, request_of. munfold.
  rewrite Hc. munfold.
  set (rq := mkRequest _ _ _ _ _ _).
  destruct (http W (List.length log) rq) as [r|e]; munfold; [|reflexivity].
  destruct (rs_status r =? 204); munfold; [reflexivity|].
  destruct (rs_status r =? 200); munfold.
  - destruct (contains "application/json" _); munfold;
      [destruct (rs_json r)|destruct (rs_read r)]; reflexivity.
  - destruct (rs_text r); reflexivity.
Qed.

Lemma render_state (L : Lib) (result : json) (st : State) :
  snd (render L result st) = st.
Proof.
  unfold render, join_errors.
  repeat match goal with
         | |- context [match ?x with _ => _ end] => destruct x
         end; reflexivity.
Qed.

(** C5. With the connection set to [192.168.1.64], reading one byte at
    [D020] hands exactly one request to the client, whatever the device
    answers: a [GET] of [http://192.168.1.64/v1/machine:readmem] with
    the parameters [address=D020] and [length=1]. *)
Theorem read_memory_request (L : Lib) (W : World) (h : Handler) :
  let st := mkState (set_base_url "192.168.1.64" h) [] in
  let st' := snd (call_tool L W (JStr "ultimate_read_memory")
                    (JObj [("address", JStr "D020"); ("length", JNum 1)]) st) in
  issued st' =
    [mkRequest "GET" "http://192.168.1.64/v1/machine:readmem"
       (Some [("address", JStr "D020"); ("length", JNum 1)]) NoBody None None] /\
  map (request_target L) (issued st') =
    ["http://192.168.1.64/v1/machine:readmem?address=D020&length=1"].
Proof.
  intros st st'.
  assert (Hst : st' =
    mkState (handler st)
      [mkRequest "GET" "http://192.168.1.64/v1/machine:readmem"
         (Some [("address", JStr "D020"); ("length", JNum 1)]) NoBody None None]).
  { subst st'. unfold call_tool. dispatch.
    unfold getitem, get_or_m, call. cbn [lookup_key get_or default String.eqb
      Ascii.eqb Bool.eqb andb].
    munfold.
    pose proof (make_request_issues W "GET" "machine:readmem"
                  (Some [("address", JStr "D020"); ("length", JNum 1)]) None st
                  eq_refl) as Hsnd.
    destruct (make_request W "GET" "machine:readmem" _ None st) as [[j|e] st1].
    - cbn [snd] in Hsnd. subst st1.
      pose proof (render_state L j
        {| handler := handler st; issued := issued st ++
             [request_of (handler st) "GET" "machine:readmem"
                (Some [("address", JStr "D020"); ("length", JNum 1)]) None] |}) as Hr.
      destruct (render L j _) as [[c|e] st2]; cbn [snd] in Hr; subst st2; reflexivity.
    - cbn [snd] in Hsnd. subst st1. reflexivity. }
  rewrite Hst. split; reflexivity.
Qed.

(** ** A program logic for [M] *)

Section Logic.
Context (I : Handler -> Prop).

Lemma spec_ret {A} (Q : A -> Prop) (a : A) : Q a -> spec I Q (ret a).
Proof. intros H st Hi. split; [exact Hi|]. intros a' [= <-]. exact H. Qed.

Lemma spec_raise {A} (Q : A -> Prop) (e : exn) : spec I Q (raise e).
Proof. intros st Hi. split; [exact Hi|]. discriminate. Qed.

Lemma spec_lift {A} (r : result A) : spec I any (lift r).
Proof. intros st Hi. split; [exact Hi|]. intros; exact Logic.I. Qed.

Lemma spec_get_handler : spec I any get_handler.
Proof. intros st Hi. split; [exact Hi|]. intros; exact Logic.I. Qed.

Lemma spec_put_handler (h : Handler) : I h -> spec I any (put_handler h).
Proof. intros H st Hi. split; [exact H|]. intros; exact Logic.I. Qed.

Lemma spec_send (W : World) (rq : Request) : spec I any (send W rq).
Proof. intros st Hi. split; [exact Hi|]. intros; exact Logic.I. Qed.

Lemma spec_bind {A B} (P : A -> Prop) (Q : B -> Prop) (c : M A) (k : A -> M B) :
  spec I P c -> (forall a, P a -> spec I Q (k a)) -> spec I Q (bind c k).
Proof.
  intros Hc Hk st Hi. unfold bind.
  destruct (Hc st Hi) as (Hi' & Hp).
  destruct (c st) as [[a|e] st1]; cbn [fst snd] in *.
  - exact (Hk a (Hp a eq_refl) st1 Hi').
  - split; [exact Hi'|discriminate].
Qed.

Lemma spec_try {A} (Q : A -> Prop) (c : M A) (h : exn -> M A) :
  spec I Q c -> (forall e, spec I Q (h e)) -> spec I Q (try_except c h).
Proof.
  intros Hc Hh st Hi. unfold try_except.
  destruct (Hc st Hi) as (Hi' & Hp).
  destruct (c st) as [[a|e] st1]; cbn [fst snd] in *.
  - split; [exact Hi'|exact Hp].
  - exact (Hh e st1 Hi').
Qed.

Lemma spec_weaken {A} (P Q : A -> Prop) (c : M A) :
  spec I P c -> (forall a, P a -> Q a) -> spec I Q c.
Proof.
  intros Hc Hpq st Hi. destruct (Hc st Hi) as (Hi' & Hp).
  split; [exact Hi'|]. intros a Ha. exact (Hpq a (Hp a Ha)).
Qed.

Lemma spec_any {A} (P : A -> Prop) (c : M A) : spec I P c -> spec I any c.
Proof. intros H. apply (spec_weaken P); [exact H|]. intros; exact Logic.I. Qed.

End Logic.

(** One step of a proof of [spec]: follow the shape of the program. *)
Ltac spec_step :=
  match goal with
  | |- spec _ _ (ret _) => apply spec_ret; try exact Logic.I; try reflexivity
  | |- spec _ _ (raise _) => apply spec_raise
  | |- spec _ _ (lift _) => apply spec_lift
  | |- spec _ _ get_handler => apply spec_get_handler
  | |- spec _ _ (send _ _) => apply spec_send
  | |- spec _ _ (bind _ _) => apply (spec_bind _ any); [|intros ? _]
  | |- spec _ _ (try_except _ _) => apply spec_try; [|intros ?]
  | |- spec _ _ (if ?b then _ else _) => destruct b
  | |- spec _ _ (match ?x with _ => _ end) => destruct x
  | |- spec _ _ (let _ := _ in _) => cbv zeta
  end.

Section Tools.
Context (L : Lib) (W : World) (I : Handler -> Prop).
Hypothesis I_set_base_url : forall url h, I (set_base_url url h).

Ltac prim :=
  unfold getitem, get_m, get_or_m, contains_key, as_str, len, exists_,
         open_read, http_error, given, optional;
  repeat spec_step.

Lemma spec_make_request method endpoint params data :
  spec I any (make_request W method endpoint params data).
Proof. unfold make_request. prim. Qed.

Lemma spec_remap_workspace path : spec I any (remap_workspace L W path).
Proof. unfold remap_workspace. prim. Qed.

Lemma spec_host_candidates file_path mounts :
  spec I any (host_candidates W file_path mounts).
Proof. induction mounts; cbn [host_candidates]; prim. exact IHmounts. Qed.

Lemma spec_relative_candidates file_path mounts :
  spec I any (relative_candidates W file_path mounts).
Proof. induction mounts; cbn [relative_candidates]; prim. exact IHmounts. Qed.

Lemma spec_try_paths paths : spec I any (try_paths W paths).
Proof. induction paths; cbn [try_paths]; prim; exact IHpaths. Qed.

Lemma spec_call method endpoint params data :
  spec I unflagged (call W method endpoint params data).
Proof.
  unfold call. apply (spec_bind _ any); [apply spec_make_request|].
  intros result _. apply spec_ret. exact Logic.I.
Qed.

(** Apply what is known about the named parts, then follow the shape. *)
Ltac tool :=
  repeat first
    [ apply spec_make_request
    | apply spec_remap_workspace
    | apply spec_host_candidates
    | apply spec_relative_candidates
    | apply spec_try_paths
    | apply (spec_any I unflagged), spec_call
    | spec_step
    | progress unfold getitem, get_m, get_or_m, contains_key, as_str, len,
        exists_, open_read, http_error, given, optional, early ].

Lemma spec_prg_from_base64 base64_str :
  spec I source_unflagged (prg_from_base64 L base64_str).
Proof. unfold prg_from_base64. tool. Qed.

Lemma spec_prg_from_url download_url :
  spec I source_unflagged (prg_from_url L W download_url).
Proof. unfold prg_from_url. tool. Qed.

Lemma spec_prg_from_file file_path :
  spec I source_unflagged (prg_from_file L W file_path).
Proof. unfold prg_from_file. tool. Qed.

Lemma spec_run_prg_binary arguments :
  spec I unflagged (run_prg_binary L W arguments).
Proof.
  unfold run_prg_binary.
  apply spec_try; [|intros e; tool].
  apply (spec_bind _ any); [tool|intros by_base64 _].
  apply (spec_bind _ source_unflagged).
  - destruct by_base64.
    + apply (spec_bind _ any); [tool|intros ? _]. apply spec_prg_from_base64.
    + apply (spec_bind _ any); [tool|intros by_url _]. destruct by_url.
      * apply (spec_bind _ any); [tool|intros ? _]. apply spec_prg_from_url.
      * apply (spec_bind _ any); [tool|intros by_file _]. destruct by_file.
        -- apply (spec_bind _ any); [tool|intros ? _]. apply spec_prg_from_file.
        -- tool.
  - intros [returned|[prg_data source_info]] Hs.
    + apply spec_ret. exact Hs.
    + tool.
Qed.

Lemma spec_set_connection arguments :
  spec I unflagged (set_connection L arguments).
Proof.
  unfold set_connection. tool.
  apply spec_put_handler, I_set_base_url.
Qed.

Lemma spec_get_connection : spec I unflagged (get_connection L).
Proof. unfold get_connection. tool. Qed.

Lemma spec_play_sid arguments : spec I unflagged (play_sid L W arguments).
Proof. unfold play_sid. tool. Qed.

Lemma spec_write_memory_binary arguments :
  spec I unflagged (write_memory_binary L W arguments).
Proof. unfold write_memory_binary. tool. Qed.

Lemma spec_call_tool_body tool_name arguments :
  spec I unflagged (call_tool_body L W tool_name arguments).
Proof.
  unfold call_tool_body.
  repeat match goal with
         | |- spec _ _ (if ?b then _ else _) => destruct b
         end;
    first [ apply spec_set_connection | apply spec_get_connection
          | apply spec_play_sid | apply spec_run_prg_binary
          | apply spec_write_memory_binary | apply spec_call | idtac ];
    tool; apply spec_call.
Qed.

Lemma spec_render result : spec I any (render L result).
Proof. unfold render, join_errors. tool. Qed.

(** A tool call keeps [I] and returns an unflagged result. *)
Lemma call_tool_spec tool_name arguments st :
  I (handler st) ->
  I (handler (snd (call_tool L W tool_name arguments st))) /\
  isError (fst (call_tool L W tool_name arguments st)) = false.
Proof.
  intros Hi. unfold call_tool.
  match goal with
  | |- context [match ?c st with _ => _ end] =>
      assert (Hc : spec I (fun r => isError r = false) c)
  end.
  { apply (spec_bind _ unflagged); [apply spec_call_tool_body|].
    intros [r|result] Ho.
    - apply spec_ret. exact Ho.
    - apply (spec_bind _ any); [apply spec_render|].
      intros content _. apply spec_ret. reflexivity. }
  destruct (Hc st Hi) as (Hi' & Hr).
  match goal with
  | |- context [match ?c st with _ => _ end] =>
      destruct (c st) as [[r|e] st1]
  end; cbn [fst snd] in *; split; auto.
Qed.

End Tools.





(** ** The connection invariant *)

Lemma set_base_url_ok (url : string) (h : Handler) :
  connection_ok (set_base_url url h).
Proof.
  right. exists (normalized url). rewrite set_base_url_normalized.
  repeat split.
  - apply normalized_http.
  - apply rstrip_no_slash.
Qed.

Lemma init_ok (url env_host : option string) : connection_ok (init url env_host).
Proof.
  unfold init.
  destruct (match url with None => _ | Some _ => _ end) as [u|].
  - destruct (negb (str_is_empty u)); [apply set_base_url_ok|left; split; reflexivity].
  - left; split; reflexivity.
Qed.

Lemma perform_ok (L : Lib) (W : World) (op : operation) (st : State) :
  connection_ok (handler st) -> connection_ok (handler (perform L W op st)).
Proof.
  intros Hi. destruct op as [url|tool_name arguments]; cbn [perform handler].
  - apply set_base_url_ok.
  - apply (call_tool_spec L W connection_ok set_base_url_ok), Hi.
Qed.

Lemma run_ok (L : Lib) (W : World) (ops : list operation) (st : State) :
  connection_ok (handler st) -> connection_ok (handler (run L W ops st)).
Proof.
  revert st. induction ops as [|op ops IH]; intros st Hi; [exact Hi|].
  apply IH, perform_ok, Hi.
Qed.

(** C10. From its construction on, through any sequence of
    [set_base_url] calls and tool calls, the handler has either no
    connection (no base URL and no API base), or a base URL that starts
    with [http] and has no trailing slash, with the API base equal to
    the base URL followed by [/v1]. *)
Theorem connection_invariant (L : Lib) (W : World)
    (url env_host : option string) (ops : list operation) :
  connection_ok (handler (run L W ops (mkState (init url env_host) []))).
Proof. apply run_ok, init_ok. Qed.

End UltimateFacts.

(* ===================================================================== *)
(** * Properties of the web server                                        *)
(* ===================================================================== *)

Module WebFacts.
Import Py Ultimate Web Sample StringFacts UltimateFacts.

(** ** Sessions *)


(** A message for an id that is not registered is not found, and the
    server stays as it is. *)
Lemma handle_messages_unknown (L : Lib) (sid : string)
    (payload : result json) (srv : Server) :
  sid <> EmptyString ->
  sessions srv !! sid = None ->
  handle_messages L (Some sid) payload srv
    = (error_response 404 "Session not found or closed", srv).
Proof.
  intros Hne Hnone. unfold handle_messages.
  destruct sid as [|ch r]; [congruence|].
  cbn [opt_truthy str_is_empty negb default from_option id]. rewrite Hnone.
  reflexivity.
Qed.




(** ** The direct upload *)

Lemma quiet_ret {A} (a : A) : quiet (ret a).
Proof. intros st. reflexivity. Qed.

Lemma quiet_raise {A} (e : exn) : quiet (@raise A e).
Proof. intros st. reflexivity. Qed.

Lemma quiet_lift {A} (r : result A) : quiet (lift r).
Proof. intros st. reflexivity. Qed.

Lemma quiet_bind {A B} (c : M A) (k : A -> M B) :
  quiet c -> (forall a, quiet (k a)) -> quiet (bind c k).
Proof.
  intros Hc Hk st. unfold bind. specialize (Hc st).
  destruct (c st) as [[a|e] st1]; cbn [snd] in *; subst st1; [apply Hk|reflexivity].
Qed.

Ltac quiet_step :=
  match goal with
  | |- quiet (ret _) => apply quiet_ret
  | |- quiet (raise _) => apply quiet_raise
  | |- quiet (lift _) => apply quiet_lift
  | |- quiet (bind _ _) => apply quiet_bind; [|intros ?]
  | |- quiet (if ?b then _ else _) => destruct b
  | |- quiet (match ?x with _ => _ end) => destruct x
  | |- quiet (let _ := _ in _) => cbv zeta
  end.

(** Reading the payload sends nothing and leaves the connection alone. *)
Lemma upload_payload_state (L : Lib) (request : UploadRequest) (st : State) :
  snd (upload_payload L request st) = st.
Proof.
  revert st. change (quiet (upload_payload L request)).
  unfold upload_payload, contains_key, getitem.
  repeat quiet_step.
Qed.

(** C7. A direct upload whose decoded payload is empty is answered with
    status 400 and the error body [No PRG data provided]; the state is
    the one the request found, so nothing was sent to the device. *)
Theorem upload_empty_payload (L : Lib) (W : World)
    (request : UploadRequest) (st : State) :
  fst (upload_payload L request st) = Ok (inr []) ->
  handle_upload_prg L W request st
    = (error_response 400 "No PRG data provided", st).
Proof.
  intros Hp. pose proof (upload_payload_state L request st) as Hs.
  unfold handle_upload_prg, bind.
  destruct (upload_payload L request st) as [r st1].
  cbn [fst snd] in *. subst r st1. reflexivity.
Qed.

Lemma upload_empty_payload_witness :
  handle_upload_prg plain_lib offline empty_upload configured
    = (error_response 400 "No PRG data provided", configured).
Proof.
  apply (upload_empty_payload plain_lib offline empty_upload configured).
  reflexivity.
Defined.

(** ** The message loop *)

Lemma strip_nonempty (s : string) :
  str_is_empty (strip s) = false -> str_is_empty s = false.
Proof. destruct s; [discriminate|reflexivity]. Qed.

(** C8. A line that holds a JSON object whose [method] is a string: if
    the method starts with [notifications/], nothing is sent to the
    write stream; if it is none of [initialize], [tools/list] and
    [tools/call] and has no such prefix, exactly one line is sent, the
    JSON-RPC error -32601 [Method not found: <method>] carrying the [id]
    of the message ([null] when it has none).  Either way the handler
    state is untouched. *)
Theorem process_message_other_methods (L : Lib) (W : World)
    (message_line : string) (message_data : dict) (m : string) (st : State) :
  str_is_empty (strip message_line) = false ->
  json_loads L (strip message_line) = Ok (JObj message_data) ->
  lookup_key "method" message_data = Some (JStr m) ->
  (startswith "notifications/" m = true ->
     process_message L W message_line st = (Ok [], st)) /\
  (startswith "notifications/" m = false ->
   m <> "initialize" -> m <> "tools/list" -> m <> "tools/call" ->
     process_message L W message_line st
       = (Ok [json_dumps_line L
                (rpc_error (get "id" message_data) (-32601)
                           ("Method not found: " +:+ m)) +:+ newline], st)).
Proof.
  intros Hline Hload Hm.
  assert (Hcommon : forall b,
    startswith "notifications/" m = b ->
    m <> "initialize" -> m <> "tools/list" -> m <> "tools/call" ->
    process_message L W message_line st
      = if b then (Ok [], st)
        else (Ok [json_dumps_line L
                    (rpc_error (get "id" message_data) (-32601)
                               ("Method not found: " +:+ m)) +:+ newline], st)).
  { intros b Hb N1 N2 N3. unfold process_message.
    rewrite (strip_nonempty _ Hline), Hline. cbn [orb].
    unfold get_m, get_or_m, emit, as_str. munfold. rewrite Hload.
    unfold get_or, get. rewrite Hm. cbn [default from_option id is_str].
    apply String.eqb_neq in N1, N2, N3. rewrite N1, N2, N3.
    rewrite andb_false_r. cbn [truthy].
    destruct m as [|ch r]; cbn [str_is_empty negb].
    - cbn in Hb. subst b. reflexivity.
    - rewrite Hb. destruct b; reflexivity. }
  split.
  - intros Hn. apply (Hcommon true Hn); intros ->; discriminate Hn.
  - intros Hn N1 N2 N3. exact (Hcommon false Hn N1 N2 N3).
Qed.

Lemma process_message_other_methods_witness :
  process_message (reading (JObj [("jsonrpc", JStr "2.0");
                                  ("method", JStr "notifications/initialized")]))
                  offline "{}" fresh = (Ok [], fresh) /\
  process_message (reading (JObj [("jsonrpc", JStr "2.0"); ("id", JNum 7);
                                  ("method", JStr "resources/list")]))
                  offline "{}" fresh
    = (Ok [json_dumps_line (reading JNull)
             (rpc_error (JNum 7) (-32601) "Method not found: resources/list")
           +:+ newline], fresh).
Proof.
  split.
  - destruct (process_message_other_methods
                (reading (JObj [("jsonrpc", JStr "2.0");
                                ("method", JStr "notifications/initialized")]))
                offline "{}" _ "notifications/initialized" fresh
                eq_refl eq_refl eq_refl) as [H _].
    apply H. reflexivity.
  - destruct (process_message_other_methods
                (reading (JObj [("jsonrpc", JStr "2.0"); ("id", JNum 7);
                                ("method", JStr "resources/list")]))
                offline "{}" _ "resources/list" fresh
                eq_refl eq_refl eq_refl) as [_ H].
    apply H; [reflexivity|discriminate..].
Defined.

End WebFacts.

(* ===================================================================== *)
(** * What a tool call does to the connection and to the device           *)
(* ===================================================================== *)

Module EffectFacts.
Import Py Ultimate Web Sample Stdio Effects Cases StringFacts UltimateFacts WebFacts.

(** ** Computations that leave the state alone *)

Lemma quiet_get_handler : quiet get_handler.
Proof. intros st. reflexivity. Qed.

Lemma quiet_try {A} (c : M A) (h : exn -> M A) :
  quiet c -> (forall e, quiet (h e)) -> quiet (try_except c h).
Proof.
  intros Hc Hh st. unfold try_except. specialize (Hc st).
  destruct (c st) as [[a|e] st1]; cbn [snd] in *; subst st1; [reflexivity|apply Hh].
Qed.

Ltac quiet_more :=
  repeat first
    [ quiet_step
    | apply quiet_get_handler
    | apply quiet_try; [|intros ?]
    | progress unfold getitem, get_m, get_or_m, contains_key, as_str, len,
        exists_, open_read, http_error, given, optional, early ].

Section Quiet.
Context (L : Lib) (W : World).

Lemma quiet_getitem k a : quiet (getitem L k a).
Proof. quiet_more. Qed.
Lemma quiet_get_or_m k d a : quiet (get_or_m L k d a).
Proof. quiet_more. Qed.
Lemma quiet_get_m k a : quiet (get_m L k a).
Proof. quiet_more. Qed.
Lemma quiet_contains_key k a : quiet (contains_key L k a).
Proof. quiet_more. Qed.
Lemma quiet_given k a : quiet (given L k a).
Proof. quiet_more. Qed.
Lemma quiet_optional k a : quiet (optional L k a).
Proof. quiet_more. Qed.
Lemma quiet_remap_workspace path : quiet (remap_workspace L W path).
Proof. unfold remap_workspace. quiet_more. Qed.
Lemma quiet_http_error r : quiet (http_error r).
Proof. quiet_more. Qed.

Lemma quiet_host_candidates file_path mounts :
  quiet (host_candidates W file_path mounts).
Proof. induction mounts; cbn [host_candidates]; quiet_more. exact IHmounts. Qed.

Lemma quiet_relative_candidates file_path mounts :
  quiet (relative_candidates W file_path mounts).
Proof. induction mounts; cbn [relative_candidates]; quiet_more. exact IHmounts. Qed.

Lemma quiet_try_paths paths : quiet (try_paths W paths).
Proof. induction paths; cbn [try_paths]; quiet_more; exact IHpaths. Qed.

Lemma quiet_prg_from_base64 v : quiet (prg_from_base64 L v).
Proof. unfold prg_from_base64. quiet_more. Qed.

Lemma quiet_prg_from_file v : quiet (prg_from_file L W v).
Proof.
  unfold prg_from_file.
  repeat first [ apply quiet_host_candidates | apply quiet_relative_candidates
               | apply quiet_try_paths | progress quiet_more ].
Qed.

Lemma quiet_render result : quiet (render L result).
Proof. unfold render, join_errors. quiet_more. Qed.

Lemma quiet_get_connection : quiet (get_connection L).
Proof. unfold get_connection. quiet_more. Qed.

End Quiet.

(** ** Requests added by a computation *)

Lemma prefix_app_app (a b c : string) :
  String.prefix (a +:+ b) (a +:+ b +:+ c) = true.
Proof.
  induction a as [|x r IH].
  - exact (prefix_app b c).
  - change (String.prefix (String x (r +:+ b)) (String x (r +:+ b +:+ c)) = true).
    cbn [String.prefix]. destruct (Ascii.ascii_dec x x); [exact IH|congruence].
Qed.

Section Sends.
Context (h : Handler) (P : Request -> Prop).

Lemma sends_quiet {A} (c : M A) : quiet c -> sends h P 0 c.
Proof.
  intros Hq st Hh. split; [rewrite Hq; exact Hh|].
  exists []. rewrite Hq, app_nil_r. repeat split; [reflexivity|constructor].
Qed.

Lemma sends_le {A} (n m : nat) (c : M A) :
  (n <= m)%nat -> sends h P n c -> sends h P m c.
Proof.
  intros Hle Hc st Hh. destruct (Hc st Hh) as (H1 & new & E & Hn & Hf).
  split; [exact H1|]. exists new. repeat split; [exact E|lia|exact Hf].
Qed.

Lemma sends_bind {A B} (n m : nat) (c : M A) (k : A -> M B) :
  sends h P n c -> (forall a, sends h P m (k a)) -> sends h P (n + m) (bind c k).
Proof.
  intros Hc Hk st Hh. unfold bind.
  destruct (Hc st Hh) as (H1 & new1 & E1 & L1 & F1).
  destruct (c st) as [[a|e] st1]; cbn [fst snd] in *.
  - destruct (Hk a st1 H1) as (H2 & new2 & E2 & L2 & F2).
    split; [exact H2|]. exists (new1 ++ new2).
    rewrite E2, E1, app_assoc. split; [reflexivity|].
    split; [rewrite length_app; lia|apply Forall_app; split; assumption].
  - split; [exact H1|]. exists new1. repeat split; [exact E1|lia|exact F1].
Qed.

Lemma sends_try {A} (n m : nat) (c : M A) (k : exn -> M A) :
  sends h P n c -> (forall e, sends h P m (k e)) ->
  sends h P (n + m) (try_except c k).
Proof.
  intros Hc Hk st Hh. unfold try_except.
  destruct (Hc st Hh) as (H1 & new1 & E1 & L1 & F1).
  destruct (c st) as [[a|e] st1]; cbn [fst snd] in *.
  - split; [exact H1|]. exists new1. repeat split; [exact E1|lia|exact F1].
  - destruct (Hk e st1 H1) as (H2 & new2 & E2 & L2 & F2).
    split; [exact H2|]. exists (new1 ++ new2).
    rewrite E2, E1, app_assoc. split; [reflexivity|].
    split; [rewrite length_app; lia|apply Forall_app; split; assumption].
Qed.

Lemma sends_send (W : World) (rq : Request) : P rq -> sends h P 1 (send W rq).
Proof.
  intros Hp st Hh. unfold send. cbn [fst snd handler issued].
  split; [exact Hh|]. exists [rq]. repeat split; [reflexivity|].
  constructor; [exact Hp|constructor].
Qed.

(** Reading the connection yields [h]. *)
Lemma sends_get_handler {B} (n : nat) (k : Handler -> M B) :
  sends h P n (k h) -> sends h P n (bind get_handler k).
Proof.
  intros Hk st Hh. unfold bind, get_handler.
  pose proof (Hk st Hh) as H. subst h. exact H.
Qed.

Lemma sends_bind_quiet {A B} (n : nat) (c : M A) (k : A -> M B) :
  quiet c -> (forall a, sends h P n (k a)) -> sends h P n (bind c k).
Proof. intros Hc Hk. apply (sends_bind 0 n); [apply sends_quiet, Hc|exact Hk]. Qed.

Lemma sends_then_quiet {A B} (n : nat) (c : M A) (k : A -> M B) :
  sends h P n c -> (forall a, quiet (k a)) -> sends h P n (bind c k).
Proof.
  intros Hc Hk. apply (sends_le (n + 0)); [lia|].
  apply sends_bind; [exact Hc|]. intros a. apply sends_quiet, Hk.
Qed.

Lemma sends_try_quiet {A} (n : nat) (c : M A) (k : exn -> M A) :
  sends h P n c -> (forall e, quiet (k e)) -> sends h P n (try_except c k).
Proof.
  intros Hc Hk. apply (sends_le (n + 0)); [lia|].
  apply sends_try; [exact Hc|]. intros e. apply sends_quiet, Hk.
Qed.

End Sends.

Lemma is_str_true (v : json) (s : string) : (v == s) = true -> v = JStr s.
Proof.
  destruct v; try discriminate. cbn [is_str]. intros E.
  apply String.eqb_eq in E. congruence.
Qed.

Lemma reach_le (h : Handler) : (reach h <= 1)%nat.
Proof. unfold reach. destruct (opt_truthy (api_base h)); lia. Qed.

Section ToolRequests.
Context (L : Lib) (W : World) (h : Handler).

(** A request to the device that sets no timeout. *)
Let plain (rq : Request) : Prop := to_device h rq /\ rq_timeout rq = None.
(** A request that waits 60 seconds at most. *)
Let bounded (rq : Request) : Prop := rq_timeout rq = Some 60.

Lemma plain_request method endpoint params body content_type :
  plain (mkRequest method (str_opt (api_base h) +:+ "/" +:+ endpoint)
                   params body content_type None).
Proof. split; [apply prefix_app_app|reflexivity]. Qed.

Lemma sends_make_request method endpoint params data :
  sends h plain (reach h) (make_request W method endpoint params data).
Proof.
  unfold make_request. apply sends_get_handler. unfold reach.
  destruct (opt_truthy (api_base h)); cbn [negb].
  - apply sends_try_quiet; [|intros e; quiet_more].
    apply sends_then_quiet; [apply sends_send, plain_request|].
    intros response. quiet_more.
  - apply sends_quiet. quiet_more.
Qed.

Lemma sends_call method endpoint params data :
  sends h plain (reach h) (call W method endpoint params data).
Proof.
  unfold call. apply sends_then_quiet; [apply sends_make_request|].
  intros result. quiet_more.
Qed.

(** Read the arguments, then make the one call. *)
Ltac reads_then_calls :=
  repeat first
    [ apply sends_call
    | apply sends_bind_quiet;
      [ first [ apply quiet_getitem | apply quiet_get_or_m | apply quiet_get_m
              | apply quiet_optional ]
      | intros ? ] ].

Lemma sends_play_sid arguments : sends h plain 1 (play_sid L W arguments).
Proof.
  unfold play_sid.
  apply sends_bind_quiet; [apply quiet_getitem|intros file_path].
  apply sends_bind_quiet; [apply quiet_get_m|intros song_number]. cbv zeta.
  apply sends_then_quiet; [|intros result; quiet_more].
  apply sends_try_quiet; [|intros e; quiet_more].
  apply sends_bind_quiet; [apply quiet_remap_workspace|intros mapped_path].
  apply sends_bind_quiet; [quiet_more|intros found].
  destruct found.
  - apply sends_get_handler. cbv zeta.
    apply sends_bind_quiet; [quiet_more|intros data].
    apply sends_then_quiet; [apply sends_send, (plain_request _ "runners:sidplay")|].
    intros response. quiet_more.
  - apply (sends_le _ _ (reach h)); [apply reach_le|apply sends_make_request].
Qed.

Lemma sends_write_memory_binary arguments :
  sends h plain 1 (write_memory_binary L W arguments).
Proof.
  unfold write_memory_binary.
  apply sends_bind_quiet; [apply quiet_getitem|intros address].
  apply sends_bind_quiet; [apply quiet_getitem|intros file_path]. cbv zeta.
  apply sends_then_quiet; [|intros result; quiet_more].
  apply sends_try_quiet; [|intros e; quiet_more].
  apply sends_bind_quiet; [apply quiet_remap_workspace|intros path].
  apply sends_try_quiet; [|intros e; quiet_more].
  apply sends_bind_quiet; [quiet_more|intros binary_data].
  apply sends_get_handler. cbv zeta.
  apply sends_then_quiet; [apply sends_send, (plain_request _ "machine:writemem")|].
  intros response. quiet_more.
Qed.

Lemma sends_prg_from_url download_url :
  sends h bounded 1 (prg_from_url L W download_url).
Proof.
  unfold prg_from_url.
  apply sends_try_quiet; [|intros e; quiet_more].
  apply sends_then_quiet; [|intros response; quiet_more].
  destruct download_url;
    first [ apply sends_send; reflexivity
          | apply (sends_le _ _ 0); [lia|apply sends_quiet; quiet_more] ].
Qed.

Lemma sends_run_prg_binary arguments :
  sends h bounded 2 (run_prg_binary L W arguments).
Proof.
  unfold run_prg_binary.
  apply sends_try_quiet; [|intros e; quiet_more].
  apply sends_bind_quiet; [apply quiet_given|intros by_base64].
  apply (sends_bind _ _ 1 1).
  - destruct by_base64.
    + apply (sends_le _ _ 0); [lia|]. apply sends_quiet.
      apply quiet_bind; [apply quiet_getitem|intros v; apply quiet_prg_from_base64].
    + apply sends_bind_quiet; [apply quiet_given|intros by_url].
      destruct by_url.
      * apply sends_bind_quiet; [apply quiet_getitem|intros v].
        apply sends_prg_from_url.
      * apply (sends_le _ _ 0); [lia|]. apply sends_quiet.
        apply quiet_bind; [apply quiet_given|intros by_file].
        destruct by_file; [|quiet_more].
        apply quiet_bind; [apply quiet_getitem|intros v; apply quiet_prg_from_file].
  - intros [returned|[prg_data source_info]].
    + apply (sends_le _ _ 0); [lia|]. apply sends_quiet. quiet_more.
    + destruct (size prg_data =? 0);
        [apply (sends_le _ _ 0); [lia|]; apply sends_quiet; quiet_more|].
      destruct (size prg_data <? 2);
        [apply (sends_le _ _ 0); [lia|]; apply sends_quiet; quiet_more|].
      apply sends_get_handler. cbv zeta.
      apply sends_then_quiet; [apply sends_send; reflexivity|].
      intros response. quiet_more.
Qed.

(** Every tool but [ultimate_set_connection]: the connection stays, and
    the requests added are within the tool's bound and of its kind. *)
Lemma sends_call_tool_body tool_name arguments :
  (tool_name == "ultimate_set_connection") = false ->
  sends h (tool_request h tool_name) (request_bound h tool_name)
        (call_tool_body L W tool_name arguments).
Proof.
  intros Hset. unfold call_tool_body. rewrite Hset.
  repeat match goal with
  | |- sends _ _ _ (if ?t == ?s then _ else _) =>
      let E := fresh "E" in
      destruct (t == s) eqn:E;
      [ apply is_str_true in E; subst;
        unfold tool_request, request_bound;
        cbn [is_str String.eqb Ascii.eqb Bool.eqb andb orb];
        first [ apply (sends_le _ _ 0);
                  [lia|apply sends_quiet, quiet_get_connection]
              | apply sends_play_sid
              | apply sends_run_prg_binary
              | apply sends_write_memory_binary
              | reads_then_calls ]
      | ]
  end.
  unfold tool_request, request_bound.
  repeat match goal with
         | H : (_ == _) = false |- _ => rewrite H; clear H
         end.
  cbn [orb]. apply (sends_le _ _ 0); [lia|]. apply sends_quiet. quiet_more.
Qed.

(** The same for the whole of [call_tool]: the rendering and the
    conversion of an exception send nothing. *)
Lemma call_tool_sends tool_name arguments st :
  (tool_name == "ultimate_set_connection") = false ->
  handler st = h ->
  handler (snd (call_tool L W tool_name arguments st)) = h /\
  exists new,
    issued (snd (call_tool L W tool_name arguments st)) = issued st ++ new /\
    (List.length new <= request_bound h tool_name)%nat /\
    Forall (tool_request h tool_name) new.
Proof.
  intros Hset Hh. unfold call_tool.
  match goal with
  | |- context [match ?c st with _ => _ end] =>
      assert (Hc : sends h (tool_request h tool_name)
                     (request_bound h tool_name) c)
  end.
  { apply sends_then_quiet; [apply sends_call_tool_body, Hset|].
    intros [r|result]; [apply quiet_ret|].
    apply quiet_bind; [apply quiet_render|intros content; apply quiet_ret]. }
  specialize (Hc st Hh).
  match goal with
  | |- context [match ?c st with _ => _ end] =>
      destruct (c st) as [[r|e] st1]
  end; exact Hc.
Qed.

End ToolRequests.

(** X1. A tool other than [ultimate_set_connection] and
    [ultimate_run_prg_binary] leaves the connection as it is, keeps the
    requests issued before and hands the client at most one new request,
    addressed below the API base and without a timeout. *)
Theorem tool_call_single_request (L : Lib) (W : World)
    (tool_name arguments : json) (st : State) :
  (tool_name == "ultimate_set_connection") = false ->
  (tool_name == "ultimate_run_prg_binary") = false ->
  let st' := snd (call_tool L W tool_name arguments st) in
  handler st' = handler st /\
  exists new,
    issued st' = issued st ++ new /\
    (List.length new <= 1)%nat /\
    Forall (fun rq => to_device (handler st) rq /\ rq_timeout rq = None) new.
Proof.
  intros Hset Hrun st'.
  destruct (call_tool_sends L W (handler st) tool_name arguments st Hset eq_refl)
    as (Hh & new & E & Hn & Hf).
  split; [exact Hh|]. exists new. split; [exact E|].
  unfold request_bound, tool_request in *. rewrite Hrun in *.
  split; [|exact Hf].
  pose proof (reach_le (handler st)).
  destruct (_ || _); lia.
Qed.

Lemma tool_call_single_request_witness :
  snd (call_tool plain_lib (answering no_content) (JStr "ultimate_reset_machine")
         (JObj []) configured)
  = mkState (handler configured)
      [mkRequest "PUT" "http://192.168.1.64/v1/machine:reset" None NoBody None None]
  /\ exists new,
       issued (snd (call_tool plain_lib (answering no_content)
                      (JStr "ultimate_reset_machine") (JObj []) configured))
         = issued configured ++ new /\ (List.length new <= 1)%nat.
Proof.
  split; [reflexivity|].
  destruct (tool_call_single_request plain_lib (answering no_content)
              (JStr "ultimate_reset_machine") (JObj []) configured
              eq_refl eq_refl) as (_ & new & E & Hn & _).
  exists new. split; [exact E|exact Hn].
Defined.

(** X2. [ultimate_run_prg_binary] leaves the connection as it is and
    hands the client at most two requests (the download and the
    upload), each of them with the 60 second timeout. *)
Theorem run_prg_binary_requests (L : Lib) (W : World)
    (arguments : json) (st : State) :
  let st' := snd (call_tool L W (JStr "ultimate_run_prg_binary") arguments st) in
  handler st' = handler st /\
  exists new,
    issued st' = issued st ++ new /\
    (List.length new <= 2)%nat /\
    Forall (fun rq => rq_timeout rq = Some 60) new.
Proof.
  intros st'.
  exact (call_tool_sends L W (handler st) (JStr "ultimate_run_prg_binary")
           arguments st eq_refl eq_refl).
Qed.

(** X3. Without a connection, a tool other than
    [ultimate_set_connection], [ultimate_play_sid],
    [ultimate_run_prg_binary] and [ultimate_write_memory_binary] changes
    nothing: no request is handed to the client. *)
Theorem unconfigured_tool_sends_nothing (L : Lib) (W : World)
    (tool_name arguments : json) (st : State) :
  opt_truthy (api_base (handler st)) = false ->
  (tool_name == "ultimate_set_connection") = false ->
  (tool_name == "ultimate_play_sid") = false ->
  (tool_name == "ultimate_run_prg_binary") = false ->
  (tool_name == "ultimate_write_memory_binary") = false ->
  snd (call_tool L W tool_name arguments st) = st.
Proof.
  intros Hc Hset Hsid Hrun Hbin.
  destruct (call_tool_sends L W (handler st) tool_name arguments st Hset eq_refl)
    as (Hh & new & E & Hn & _).
  unfold request_bound, reach in Hn. rewrite Hrun, Hsid, Hbin, Hc in Hn.
  cbn [orb] in Hn. destruct new as [|rq new]; [|cbn in Hn; lia].
  rewrite app_nil_r in E.
  destruct (snd (call_tool L W tool_name arguments st)) as [h' log'].
  destruct st as [h0 log]. cbn [handler issued] in *. congruence.
Qed.

Lemma unconfigured_tool_sends_nothing_witness :
  snd (call_tool plain_lib (answering no_content) (JStr "ultimate_reset_machine")
         (JObj []) fresh) = fresh.
Proof.
  apply (unconfigured_tool_sends_nothing plain_lib (answering no_content)
           (JStr "ultimate_reset_machine") (JObj []) fresh); reflexivity.
Defined.

End EffectFacts.

(* ===================================================================== *)
(** * The connection tools, and how a handler is built                    *)
(* ===================================================================== *)

Module ConnectionFacts.
Import Py Ultimate Web Sample Stdio Effects Cases StringFacts UltimateFacts WebFacts.

(** X4. The two connection tools are handled locally, whatever the
    arguments and whatever the world: [ultimate_set_connection] hands
    nothing to the client, and [ultimate_get_connection] changes
    nothing at all. *)
Theorem connection_tools_are_local (L : Lib) (W : World)
    (arguments : json) (st : State) :
  issued (snd (call_tool L W (JStr "ultimate_set_connection") arguments st))
    = issued st /\
  snd (call_tool L W (JStr "ultimate_get_connection") arguments st) = st.
Proof.
  split.
  - unfold call_tool. dispatch.
    unfold set_connection, getitem, get_m, get_or_m. munfold.
    destruct arguments as [| | | | |d]; try reflexivity.
    destruct (lookup_key "hostname" d); reflexivity.
  - reflexivity.
Qed.

(** X5. After [ultimate_set_connection] with a [hostname], the base URL
    is [http://<hostname>], followed by [:<port>] when a port is given
    and truthy, without trailing slashes; the answer quotes it, and
    [ultimate_get_connection] reports exactly that URL from then on. *)
Theorem set_then_get_connection (L : Lib) (W : World)
    (d : dict) (hostname : json) (arguments' : json) (st : State) :
  lookup_key "hostname" d = Some hostname ->
  let port := get "port" d in
  let url := if truthy port
             then "http://" +:+ str L hostname +:+ ":" +:+ str L port
             else "http://" +:+ str L hostname in
  let b := rstrip "/" url in
  let set := call_tool L W (JStr "ultimate_set_connection") (JObj d) st in
  set = (text_result
           (json_dumps L (JObj [("ok", JBool true);
                                ("message", JStr ("Connection set to " +:+ b))])),
         mkState (mkHandler (Some b) (Some (b +:+ "/v1"))) (issued st)) /\
  call_tool L W (JStr "ultimate_get_connection") arguments' (snd set)
    = (text_result (json_dumps L (JObj [("base_url", JStr b)])), snd set).
Proof.
  intros Hhost port url b set.
  assert (Hset : set =
    (text_result
       (json_dumps L (JObj [("ok", JBool true);
                            ("message", JStr ("Connection set to " +:+ b))])),
     mkState (mkHandler (Some b) (Some (b +:+ "/v1"))) (issued st))).
  { subst set b url port. unfold call_tool. dispatch.
    unfold set_connection, getitem, get_m, get_or_m. rewrite Hhost. munfold.
    unfold get, get_or.
    destruct (truthy (default JNull (lookup_key "port" d))); reflexivity. }
  split; [exact Hset|]. rewrite Hset. reflexivity.
Qed.

Lemma set_then_get_connection_witness :
  call_tool plain_lib offline (JStr "ultimate_get_connection") (JObj [])
    (snd (call_tool plain_lib offline (JStr "ultimate_set_connection")
            (JObj [("hostname", JStr "c64.local/"); ("port", JNum 8080)]) fresh))
  = (text_result (json_dumps plain_lib
                    (JObj [("base_url", JStr "http://c64.local/:8080")])),
     mkState (mkHandler (Some "http://c64.local/:8080")
                        (Some "http://c64.local/:8080/v1")) []).
Proof.
  destruct (set_then_get_connection plain_lib offline
              [("hostname", JStr "c64.local/"); ("port", JNum 8080)]
              (JStr "c64.local/") (JObj []) fresh eq_refl) as (Hset & Hget).
  rewrite Hget. rewrite Hset. reflexivity.
Defined.

(** X6. A handler built without a URL takes the host from [C64_HOST]:
    unset or empty, there is no connection; otherwise the connection is
    the one [set_base_url] makes of the value.  A URL given to the
    constructor wins over the environment. *)
Theorem init_from_environment (url : string) (env_host : option string) :
  init None None = mkHandler None None /\
  init None (Some EmptyString) = mkHandler None None /\
  (forall host, host <> EmptyString ->
     init None (Some host) = set_base_url host (mkHandler None None)) /\
  (url <> EmptyString ->
     init (Some url) env_host = set_base_url url (mkHandler None None)).
Proof.
  split; [reflexivity|]. split; [reflexivity|]. split.
  - intros host Hne. destruct host as [|c r]; [congruence|].
    unfold init, get_c64_host_from_env. cbn [str_is_empty negb].
    destruct (startswith "http" (String c r)) eqn:E; cbn [negb].
    + reflexivity.
    + cbn [str_is_empty negb]. unfold set_base_url. rewrite E. reflexivity.
  - intros Hne. destruct url as [|c r]; [congruence|]. reflexivity.
Qed.

Lemma init_from_environment_witness :
  init None (Some "c64.local/")
  = mkHandler (Some "http://c64.local") (Some "http://c64.local/v1").
Proof.
  destruct (init_from_environment "x" None) as (_ & _ & H & _).
  rewrite (H "c64.local/"); [reflexivity|discriminate].
Defined.

End ConnectionFacts.

(* ===================================================================== *)
(** * What a tool call returns                                            *)
(* ===================================================================== *)

Module ResultFacts.
Import Py Ultimate Web Sample Stdio Effects Cases StringFacts UltimateFacts WebFacts.

(** ** Computations that do not raise *)






Section Safe.
Context (L : Lib) (W : World).






End Safe.




(** ** The shape of a result *)

Section Textual.
Context (L : Lib) (W : World).

Let I : Handler -> Prop := fun _ => True.

Lemma textual_call method endpoint params data :
  spec I textual (call W method endpoint params data).
Proof.
  unfold call. apply (spec_bind _ any); [apply spec_make_request|].
  intros result _. apply spec_ret. exact Logic.I.
Qed.

Ltac shape :=
  repeat first
    [ apply spec_make_request
    | apply spec_remap_workspace
    | apply spec_host_candidates
    | apply spec_relative_candidates
    | apply spec_try_paths
    | apply textual_call
    | apply spec_put_handler; exact Logic.I
    | spec_step
    | match goal with
      | |- textual _ => first [exact Logic.I | eexists; reflexivity]
      | |- source_textual _ => first [exact Logic.I | eexists; reflexivity]
      end
    | progress unfold getitem, get_m, get_or_m, contains_key, as_str, len,
        exists_, open_read, http_error, given, optional, early ].

Lemma textual_prg_from_base64 v : spec I source_textual (prg_from_base64 L v).
Proof. unfold prg_from_base64. shape. Qed.

Lemma textual_prg_from_url v : spec I source_textual (prg_from_url L W v).
Proof. unfold prg_from_url. shape. Qed.

Lemma textual_prg_from_file v : spec I source_textual (prg_from_file L W v).
Proof. unfold prg_from_file. shape. Qed.

Lemma textual_run_prg_binary arguments :
  spec I textual (run_prg_binary L W arguments).
Proof.
  unfold run_prg_binary.
  apply spec_try; [|intros e; shape].
  apply (spec_bind _ any); [shape|intros by_base64 _].
  apply (spec_bind _ source_textual).
  - destruct by_base64.
    + apply (spec_bind _ any); [shape|intros ? _]. apply textual_prg_from_base64.
    + apply (spec_bind _ any); [shape|intros by_url _]. destruct by_url.
      * apply (spec_bind _ any); [shape|intros ? _]. apply textual_prg_from_url.
      * apply (spec_bind _ any); [shape|intros by_file _]. destruct by_file.
        -- apply (spec_bind _ any); [shape|intros ? _]. apply textual_prg_from_file.
        -- shape.
  - intros [returned|[prg_data source_info]] Hs.
    + apply spec_ret. exact Hs.
    + shape.
Qed.

Lemma textual_call_tool_body tool_name arguments :
  spec I textual (call_tool_body L W tool_name arguments).
Proof.
  unfold call_tool_body.
  repeat match goal with
         | |- spec _ _ (if ?b then _ else _) => destruct b
         end;
    first [ apply textual_run_prg_binary | idtac ];
    unfold set_connection, get_connection, play_sid, write_memory_binary;
    shape.
Qed.

End Textual.

(** Each result [call_tool] builds is [text_result] of some text. *)
Lemma call_tool_is_text (L : Lib) (W : World) (name arguments : json) (st : State) :
  exists t, fst (call_tool L W name arguments st) = text_result t.
Proof.
  unfold call_tool.
  match goal with
  | |- context [match ?c st with _ => _ end] =>
      assert (Hc : spec (fun _ => True) (fun r => exists t, r = text_result t) c)
  end.
  { apply (spec_bind _ textual); [apply textual_call_tool_body|].
    intros [r|result] Ho.
    - apply spec_ret. exact Ho.
    - apply (spec_bind _ any); [apply spec_render|].
      intros content _. apply spec_ret. eexists. reflexivity. }
  destruct (Hc st Logic.I) as (_ & Hr).
  match goal with
  | |- context [match ?c st with _ => _ end] =>
      destruct (c st) as [[r|e] st1]
  end; cbn [fst] in *; [apply Hr; reflexivity|eexists; reflexivity].
Qed.

(** X8. The content [handle_call_tool] passes on is always exactly one
    item of type [text], for every tool name, every argument value and
    every behaviour of the device: each result [call_tool] builds is
    [text_result] of some text. *)
Theorem handle_call_tool_one_text (L : Lib) (W : World)
    (name arguments : json) (st : State) :
  exists t,
    fst (call_tool L W name arguments st) = text_result t /\
    handle_call_tool L W name arguments st
      = ([mkTextContent "text" t], snd (call_tool L W name arguments st)).
Proof.
  destruct (call_tool_is_text L W name arguments st) as (t & Ht).
  exists t. split; [exact Ht|].
  unfold handle_call_tool.
  destruct (call_tool L W name arguments st) as [r st1].
  cbn [fst snd] in *. subst r. reflexivity.
Qed.

(** ** The rendering *)

Lemma lookup_filter_other (k : string) (kv : dict) :
  k <> "errors" ->
  lookup_key k (List.filter (fun e => negb (String.eqb (fst e) "errors")) kv)
  = lookup_key k kv.
Proof.
  intros Hk. induction kv as [|[k' v] r IH]; [reflexivity|].
  cbn [List.filter fst lookup_key].
  destruct (String.eqb_spec k' "errors") as [->|Hn]; cbn [negb lookup_key].
  - destruct (String.eqb_spec k "errors"); [congruence|exact IH].
  - rewrite IH. reflexivity.
Qed.

Lemma lookup_filter_errors (kv : dict) :
  lookup_key "errors" (List.filter (fun e => negb (String.eqb (fst e) "errors")) kv)
  = None.
Proof.
  induction kv as [|[k' v] r IH]; [reflexivity|].
  cbn [List.filter fst].
  destruct (String.eqb_spec k' "errors") as [->|Hn]; cbn [negb lookup_key];
    [exact IH|].
  destruct (String.eqb_spec "errors" k'); [congruence|exact IH].
Qed.

Lemma join_strings (msgs : list string) :
  forallb (fun x => match x with JStr _ => true | _ => false end) (map JStr msgs) = true /\
  omap (fun x => match x with JStr s => Some s | _ => None end) (map JStr msgs) = msgs.
Proof.
  induction msgs as [|m r [IH1 IH2]]; [split; reflexivity|].
  cbn [map forallb]. rewrite IH1. split; [reflexivity|].
  cbn. f_equal. exact IH2.
Qed.

(** X9. The rendering of a dict.  A non-empty list of error strings
    under [errors] gives [Errors: ] followed by the errors joined by a
    comma and a space.  Without an error list the text is the dump of
    the dict without its [errors] key, every other entry kept. *)
Theorem render_dict (L : Lib) (kv : dict) (st : State) :
  (forall msgs, msgs <> [] ->
     lookup_key "errors" kv = Some (JArr (map JStr msgs)) ->
     render L (JObj kv) st = (Ok ("Errors: " +:+ join ", " msgs), st)) /\
  (has_errors (JObj kv) = false ->
     exists kv',
       render L (JObj kv) st = (Ok (json_dumps L (JObj kv')), st) /\
       lookup_key "errors" kv' = None /\
       forall k, k <> "errors" -> lookup_key k kv' = lookup_key k kv).
Proof.
  split.
  - intros msgs Hne Hk. unfold render, has_key, get, join_errors.
    rewrite Hk. cbn [default from_option id truthy].
    destruct (join_strings msgs) as (Hall & Hmap).
    destruct msgs as [|m r]; [congruence|].
    cbn [map andb]. cbn [map] in Hall, Hmap. rewrite Hall, Hmap. reflexivity.
  - intros Herr. cbn [has_errors] in Herr. unfold render. rewrite Herr.
    eexists. split; [reflexivity|]. split.
    + apply lookup_filter_errors.
    + intros k Hk. apply lookup_filter_other, Hk.
Qed.

Lemma render_dict_witness :
  render plain_lib (JObj [("errors", JArr [JStr "first"; JStr "second"])]) fresh
    = (Ok "Errors: first, second", fresh) /\
  exists kv',
    render plain_lib (JObj [("ok", JBool true); ("errors", JArr [])]) fresh
      = (Ok (json_dumps plain_lib (JObj kv')), fresh) /\
    lookup_key "errors" kv' = None.
Proof.
  split.
  - destruct (render_dict plain_lib [("errors", JArr [JStr "first"; JStr "second"])]
                fresh) as (H & _).
    apply (H ["first"; "second"]); [discriminate|reflexivity].
  - destruct (render_dict plain_lib [("ok", JBool true); ("errors", JArr [])]
                fresh) as (_ & H).
    destruct (H eq_refl) as (kv' & Hr & Hn & _).
    exists kv'. split; [exact Hr|exact Hn].
Defined.

End ResultFacts.

(* ===================================================================== *)
(** * Uploading a program given as base64                                 *)
(* ===================================================================== *)

Module PrgFacts.
Import Py Ultimate Web Sample Stdio Effects Cases StringFacts UltimateFacts WebFacts.

(** X10. [ultimate_run_prg_binary] with base64 data that decodes: a
    payload of fewer than two bytes is refused with an error text and
    nothing is sent; a longer one is posted once, byte for byte, to
    [runners:run_prg] below the API base, as an octet stream with the
    60 second timeout.  A [url] or [file_path] given besides is not
    looked at. *)
Theorem prg_base64_upload (L : Lib) (W : World) (d : dict) (s : string)
    (prg_data : list byte) (st : State) :
  lookup_key "prg_data_base64" d = Some (JStr s) ->
  str_is_empty (strip s) = false ->
  b64decode_strict L (strip s) = Ok prg_data ->
  let out := call_tool L W (JStr "ultimate_run_prg_binary") (JObj d) st in
  (size prg_data < 2 ->
     out = (text_result
              (json_dumps L
                 (errors_result
                    (if size prg_data =? 0
                     then "No PRG data provided or data is empty"
                     else "PRG file is too small (must be at least 2 bytes for load address)"))),
            st)) /\
  (2 <= size prg_data ->
     snd out = mkState (handler st)
                 (issued st ++ [run_prg_request (handler st) prg_data (Some 60)])).
Proof.
  intros Hkey Hblank Hdec out. subst out.
  pose proof (strip_nonempty s Hblank) as Hs.
  unfold call_tool. dispatch.
  unfold run_prg_binary, given, contains_key, getitem, has_key, prg_from_base64,
    len, as_str.
  rewrite Hkey. munfold. cbn [truthy]. rewrite Hs. munfold.
  rewrite Hblank, Hdec. munfold.
  destruct (Z.eqb_spec (size prg_data) 0) as [E0|N0]; munfold.
  { split; [reflexivity|lia]. }
  destruct (Z.ltb_spec (size prg_data) 2) as [E2|N2]; munfold.
  { split; [reflexivity|lia]. }
  split; [lia|]. intros _. destruct st as [h log]. munfold.
  unfold run_prg_request.
  destruct (http W _ _) as [r|e]; munfold.
  - destruct (rs_status r =? 200); munfold;
      [destruct (rs_json r)|destruct (rs_text r)]; munfold;
      try destruct (is_binascii _); reflexivity.
  - destruct (is_binascii e); reflexivity.
Qed.

Lemma prg_base64_upload_witness :
  snd (call_tool (decoding program) offline (JStr "ultimate_run_prg_binary")
         (JObj [("prg_data_base64", JStr "AQgLCA=="); ("url", JStr "http://x/y.prg")])
         configured)
  = mkState (handler configured)
      [mkRequest "POST" "http://192.168.1.64/v1/runners:run_prg" None
         (RawBody program) (Some "application/octet-stream") (Some 60)].
Proof.
  destruct (prg_base64_upload (decoding program) offline
              [("prg_data_base64", JStr "AQgLCA=="); ("url", JStr "http://x/y.prg")]
              "AQgLCA==" program configured eq_refl eq_refl eq_refl) as (_ & H).
  apply H. vm_compute. discriminate.
Defined.

(** X11. [ultimate_run_prg_binary] with base64 data that does not
    decode answers with the error text and sends nothing. *)
Theorem prg_base64_rejected (L : Lib) (W : World) (d : dict) (s : string)
    (e : exn) (st : State) :
  lookup_key "prg_data_base64" d = Some (JStr s) ->
  str_is_empty (strip s) = false ->
  b64decode_strict L (strip s) = Raise e ->
  call_tool L W (JStr "ultimate_run_prg_binary") (JObj d) st
  = (text_result
       (json_dumps L
          (errors_result
             (if is_binascii e
              then "Invalid base64 data: " +:+ exn_msg e
                   +:+ ". Make sure the base64 string is complete and properly encoded."
              else "Failed to decode base64 data: " +:+ exn_msg e))),
     st).
Proof.
  intros Hkey Hblank Hdec.
  pose proof (strip_nonempty s Hblank) as Hs.
  unfold call_tool. dispatch.
  unfold run_prg_binary, given, contains_key, getitem, has_key, prg_from_base64,
    len, as_str.
  rewrite Hkey. munfold. cbn [truthy]. rewrite Hs. munfold.
  rewrite Hblank, Hdec. munfold.
  destruct (is_binascii e); reflexivity.
Qed.

Lemma prg_base64_rejected_witness :
  call_tool rejecting offline (JStr "ultimate_run_prg_binary")
    (JObj [("prg_data_base64", JStr "AQg")]) configured
  = (text_result
       (json_dumps rejecting
          (errors_result
             "Invalid base64 data: Incorrect padding. Make sure the base64 string is complete and properly encoded.")),
     configured).
Proof.
  apply (prg_base64_rejected rejecting offline
           [("prg_data_base64", JStr "AQg")] "AQg"
           (Exn BinasciiError "Incorrect padding") configured); reflexivity.
Defined.

End PrgFacts.

(* ===================================================================== *)
(** * Sessions, connections and the registry                              *)
(* ===================================================================== *)

Module SessionFacts.
Import Py Ultimate Web Sample Stdio Effects Cases StringFacts UltimateFacts WebFacts.

(** ** The registry invariant *)

Lemma registry_ok_empty (dev : State) : registry_ok (no_sessions dev).
Proof.
  split.
  - intros sid c H. cbn in H. rewrite lookup_empty in H. discriminate.
  - intros c conn H. cbn in H. rewrite lookup_empty in H. discriminate.
Qed.

(** Replacing the streams of a connection, its session id kept. *)
Lemma registry_ok_update (srv : Server) (c : nat) (conn conn' : Connection)
    (dev : State) :
  connections srv !! c = Some conn ->
  session_id conn' = session_id conn ->
  registry_ok srv ->
  registry_ok (mkServer (sessions srv) (<[c := conn']> (connections srv))
                        (opened srv) dev).
Proof.
  intros Hc Hsid (Hreg & Hnum). split; cbn [sessions connections opened].
  - intros sid c' Hs. destruct (Hreg sid c' Hs) as (conn0 & H0 & E0).
    destruct (decide (c = c')) as [<-|Hne].
    + exists conn'. rewrite lookup_insert_eq. split; [reflexivity|]. congruence.
    + exists conn0. rewrite lookup_insert_ne by exact Hne. split; assumption.
  - intros c' conn0 H0. destruct (decide (c = c')) as [<-|Hne].
    + exact (Hnum c conn Hc).
    + rewrite lookup_insert_ne in H0 by exact Hne. exact (Hnum c' conn0 H0).
Qed.

Lemma registry_ok_device (srv : Server) (dev : State) :
  registry_ok srv ->
  registry_ok (mkServer (sessions srv) (connections srv) (opened srv) dev).
Proof. intros H. exact H. Qed.

Lemma handle_sse_ok (q : option string) (uuid : string) (srv : Server) :
  registry_ok srv -> registry_ok (snd (handle_sse q uuid srv)).
Proof.
  intros (Hreg & Hnum). unfold handle_sse. cbn [snd].
  split; cbn [sessions connections opened].
  - intros sid c Hs. destruct (decide (default uuid q = sid)) as [<-|Hne].
    + rewrite lookup_insert_eq in Hs. injection Hs as <-.
      eexists. rewrite lookup_insert_eq. split; reflexivity.
    + rewrite lookup_insert_ne in Hs by exact Hne.
      destruct (Hreg sid c Hs) as (conn & Hc & E).
      exists conn. split; [|exact E].
      rewrite lookup_insert_ne; [exact Hc|].
      pose proof (Hnum c conn Hc). lia.
  - intros c conn Hc. destruct (decide (opened srv = c)) as [<-|Hne]; [lia|].
    rewrite lookup_insert_ne in Hc by exact Hne.
    pose proof (Hnum c conn Hc). lia.
Qed.

Lemma finish_ok (c : nat) (srv : Server) :
  registry_ok srv -> registry_ok (finish c srv).
Proof.
  intros (Hreg & Hnum). unfold finish.
  destruct (connections srv !! c) as [conn|]; [|split; assumption].
  split; cbn [sessions connections opened]; [|exact Hnum].
  intros sid c' Hs. apply lookup_delete_Some in Hs as (_ & Hs).
  exact (Hreg sid c' Hs).
Qed.

Lemma handle_messages_ok (L : Lib) (q : option string) (payload : result json)
    (srv : Server) :
  registry_ok srv -> registry_ok (snd (handle_messages L q payload srv)).
Proof.
  intros Hok. unfold handle_messages.
  destruct (negb (opt_truthy q)); [exact Hok|].
  destruct (sessions srv !! default "" q) as [c|]; [|exact Hok].
  destruct payload as [[| | | | |m]|e]; try exact Hok.
  destruct (negb (has_key "jsonrpc" m)); [exact Hok|].
  destruct (connections srv !! c) as [conn|] eqn:Hc; [|exact Hok].
  cbn [snd]. apply (registry_ok_update srv c conn); [exact Hc|reflexivity|exact Hok].
Qed.

Lemma step_ok (L : Lib) (W : World) (c : nat) (srv : Server) :
  registry_ok srv -> registry_ok (step L W c srv).
Proof.
  intros Hok. unfold step.
  destruct (connections srv !! c) as [conn|] eqn:Hc; [|exact Hok].
  destruct (read_stream conn) as [|line rest]; [exact Hok|].
  destruct (process_message L W line (device srv)) as [r dev].
  apply (registry_ok_update srv c conn); [exact Hc|reflexivity|exact Hok].
Qed.

Lemma relay_ok (c : nat) (srv : Server) :
  registry_ok srv -> registry_ok (snd (relay c srv)).
Proof.
  intros Hok. unfold relay.
  destruct (connections srv !! c) as [conn|] eqn:Hc; [|exact Hok].
  destruct (write_stream conn) as [|message rest]; [exact Hok|].
  cbn [snd]. apply (registry_ok_update srv c conn); [exact Hc|reflexivity|exact Hok].
Qed.

Lemma act_ok (L : Lib) (W : World) (a : action) (srv : Server) :
  registry_ok srv -> registry_ok (act L W a srv).
Proof.
  intros Hok. destruct a; cbn [act].
  - apply handle_sse_ok, Hok.
  - apply handle_messages_ok, Hok.
  - apply step_ok, Hok.
  - apply relay_ok, Hok.
  - apply finish_ok, Hok.
  - apply registry_ok_device, Hok.
Qed.

(** X12. Whatever happens to a server that starts without sessions
    (connections opening and closing, messages submitted, delivered and
    forwarded, uploads), every registry entry holds the streams of a
    connection that was opened under that very session id, and a new
    connection never takes the number of an old one. *)
Theorem registry_invariant (L : Lib) (W : World) (l : list action) (dev : State) :
  registry_ok (acts L W l (no_sessions dev)).
Proof.
  unfold acts.
  assert (H : forall srv, registry_ok srv ->
                registry_ok (fold_left (fun srv a => act L W a srv) l srv)).
  { induction l as [|a l IH]; intros srv Hok; [exact Hok|].
    cbn [fold_left]. apply IH, act_ok, Hok. }
  apply H, registry_ok_empty.
Qed.

(** ** Submitting a message *)

(** A branch of [handle_messages] that refuses the message. *)
Ltac refuse :=
  repeat split; try reflexivity; try discriminate; try (intros; reflexivity);
  try (intros (sid' & c' & m' & Hq & Hne' & Hs' & Hp & Hj'); congruence);
  try (intros; congruence).

(** X13. [handle_messages] never touches the registry, the device state
    or the numbering of connections.  With a sound registry it answers
    200 exactly when the session id is non-empty and registered and the
    payload is a JSON object with a [jsonrpc] key; the message then
    joins the end of the read stream of the connection registered under
    that id, as one dumped line, and nothing else changes.  Any other
    answer leaves the server as it was. *)
Theorem handle_messages_outcome (L : Lib) (q : option string)
    (payload : result json) (srv : Server) :
  registry_ok srv ->
  let r := fst (handle_messages L q payload srv) in
  let srv' := snd (handle_messages L q payload srv) in
  sessions srv' = sessions srv /\ device srv' = device srv /\
  opened srv' = opened srv /\
  (status_code r <> 200 -> srv' = srv) /\
  (status_code r = 200 <->
     exists sid c m,
       q = Some sid /\ sid <> EmptyString /\ sessions srv !! sid = Some c /\
       payload = Ok (JObj m) /\ has_key "jsonrpc" m = true) /\
  (forall sid c m,
     q = Some sid -> sid <> EmptyString -> sessions srv !! sid = Some c ->
     payload = Ok (JObj m) -> has_key "jsonrpc" m = true ->
     exists conn,
       connections srv !! c = Some conn /\
       connections srv'
         = <[c := mkConnection (session_id conn)
                    (read_stream conn ++ [line_of L (JObj m)])
                    (write_stream conn)]> (connections srv)).
Proof.
  intros (Hreg & Hnum) r srv'. subst r srv'. unfold handle_messages.
  destruct q as [[|ch sid]|]; cbn [opt_truthy str_is_empty negb];
    [refuse| |refuse].
  cbn [default from_option id].
  destruct (sessions srv !! String ch sid) as [c|] eqn:Hs; [|refuse].
  destruct (Hreg _ c Hs) as (conn & Hc & Hsid).
  destruct payload as [j|e]; [|refuse].
  destruct j as [| | | | |m]; [refuse..|].
  destruct (has_key "jsonrpc" m) eqn:Hj; cbn [negb]; [|refuse].
  rewrite Hc. cbn [fst snd sessions device opened connections status_code json_response].
  split; [reflexivity|]. split; [reflexivity|]. split; [reflexivity|].
  split; [intros H; congruence|]. split; [split|].
  - intros _. exists (String ch sid), c, m. repeat split; try assumption. discriminate.
  - reflexivity.
  - intros sid' c' m' [= <-] _ Hs' [= <-] _.
    assert (c' = c) by congruence. subst c'.
    exists conn. split; [exact Hc|reflexivity].
Qed.

Lemma handle_messages_outcome_witness :
  status_code (fst (handle_messages plain_lib (Some "s1") ping (one_session "s1")))
    = 200 /\
  sessions (snd (handle_messages plain_lib (Some "s1") ping (one_session "s1")))
    = sessions (one_session "s1").
Proof.
  pose proof (handle_messages_outcome plain_lib (Some "s1") ping (one_session "s1")
                (handle_sse_ok (Some "s1") "generated" (no_sessions fresh)
                   (registry_ok_empty fresh))) as (Hs & _ & _ & _ & H200 & _).
  split; [|exact Hs].
  apply H200. exists "s1", 0%nat. eexists.
  repeat split. discriminate.
Defined.

(** ** Two connections under one session id *)

(** X14. The registry is keyed by the session id alone.  When a second
    connection opens under the id of a connection that is still open,
    it takes over the entry; when the first connection then ends, its
    [finally] removes the entry although it belongs to the second, which
    is still open: messages for the id are answered 404 from then on. *)
Theorem shared_session_id (L : Lib) (sid uuid1 uuid2 : string)
    (payload : result json) (srv : Server) :
  sid <> EmptyString ->
  let first := opened srv in
  let second := S (opened srv) in
  let both := snd (handle_sse (Some sid) uuid2
                     (snd (handle_sse (Some sid) uuid1 srv))) in
  sessions both !! sid = Some second /\
  is_Some (connections (finish first both) !! second) /\
  sessions (finish first both) !! sid = None /\
  handle_messages L (Some sid) payload (finish first both)
    = (error_response 404 "Session not found or closed", finish first both).
Proof.
  intros Hne first second both. subst first second both.
  unfold handle_sse. cbn [snd default from_option id sessions connections opened device].
  assert (Hfirst :
    (<[S (opened srv) := mkConnection sid [] []]>
       (<[opened srv := mkConnection sid [] []]> (connections srv)))
      !! opened srv = Some (mkConnection sid [] [])).
  { rewrite lookup_insert_ne by lia. apply lookup_insert_eq. }
  split; [apply lookup_insert_eq|].
  unfold finish. cbn [connections sessions opened device]. rewrite Hfirst.
  cbn [session_id connections sessions].
  split; [rewrite lookup_insert_eq; eexists; reflexivity|].
  assert (Hgone : delete sid (<[sid := S (opened srv)]>
                                (<[sid := opened srv]> (sessions srv))) !! sid = None)
    by apply lookup_delete_eq.
  split; [exact Hgone|].
  apply handle_messages_unknown; [exact Hne|exact Hgone].
Qed.

Lemma shared_session_id_witness :
  handle_messages plain_lib (Some "s1") ping (finish 0 (two_connections "s1"))
    = (error_response 404 "Session not found or closed",
       finish 0 (two_connections "s1")) /\
  is_Some (connections (finish 0 (two_connections "s1")) !! 1%nat).
Proof.
  destruct (shared_session_id plain_lib "s1" "generated" "generated" ping
              (no_sessions fresh)) as (_ & Hopen & _ & H404); [discriminate|].
  split; [exact H404|exact Hopen].
Defined.

(** ** Opening a connection *)

(** X15. [handle_sse] with a sound registry: the first event of the
    stream names the message endpoint with the session id (the one of
    the query, else the generated one); the id is registered for a new
    connection with empty streams; the entries of other ids and the
    streams of the connections opened before are untouched. *)
Theorem handle_sse_opens (q : option string) (uuid : string) (srv : Server) :
  registry_ok srv ->
  let sid := default uuid q in
  let ev := fst (fst (handle_sse q uuid srv)) in
  let c := snd (fst (handle_sse q uuid srv)) in
  let srv' := snd (handle_sse q uuid srv) in
  ev = mkEvent "endpoint" ("/messages?session_id=" +:+ sid) /\
  sessions srv' !! sid = Some c /\
  connections srv !! c = None /\
  connections srv' !! c = Some (mkConnection sid [] []) /\
  (forall sid', sid' <> sid -> sessions srv' !! sid' = sessions srv !! sid') /\
  (forall c' conn, connections srv !! c' = Some conn ->
     connections srv' !! c' = Some conn) /\
  device srv' = device srv.
Proof.
  intros (Hreg & Hnum) sid ev c srv'. subst sid ev c srv'.
  unfold handle_sse. cbn [fst snd sessions connections opened device].
  split; [reflexivity|]. split; [apply lookup_insert_eq|].
  assert (Hfresh : connections srv !! opened srv = None).
  { destruct (connections srv !! opened srv) as [conn|] eqn:E; [|reflexivity].
    pose proof (Hnum _ _ E). lia. }
  split; [exact Hfresh|]. split; [apply lookup_insert_eq|].
  split; [intros sid' Hne; apply lookup_insert_ne; congruence|].
  split; [|reflexivity].
  intros c' conn Hc. rewrite lookup_insert_ne; [exact Hc|].
  pose proof (Hnum _ _ Hc). lia.
Qed.

Lemma handle_sse_opens_witness :
  connections (two_connections "s1") !! 0%nat = Some (mkConnection "s1" [] []).
Proof.
  destruct (handle_sse_opens (Some "s1") "generated" (one_session "s1")
              (handle_sse_ok (Some "s1") "generated" (no_sessions fresh)
                 (registry_ok_empty fresh)))
    as (_ & _ & _ & _ & _ & Hkept & _).
  apply Hkept. reflexivity.
Defined.

End SessionFacts.

(* ===================================================================== *)
(** * The message loop                                                    *)
(* ===================================================================== *)

Module LoopFacts.
Import Py Ultimate Web Sample Stdio Effects Cases StringFacts UltimateFacts WebFacts.
Import ResultFacts.

Lemma one_response_nil (L : Lib) : one_response L [].
Proof. split; [cbn; lia|constructor]. Qed.

Lemma one_response_emit (L : Lib) (response : json) :
  one_response L [json_dumps_line L response +:+ newline].
Proof.
  split; [cbn; lia|]. constructor; [|constructor].
  exists response. reflexivity.
Qed.

Lemma spec_run {A} (I : Handler -> Prop) (f : State -> A * State) :
  (forall st, I (handler st) -> I (handler (snd (f st)))) ->
  spec I any (fun st => let (r, st') := f st in (Ok r, st')).
Proof.
  intros Hf st Hi. specialize (Hf st Hi).
  destruct (f st) as [r st1]. split; [exact Hf|]. intros; exact Logic.I.
Qed.

(** One line never makes the loop raise, and yields at most one
    response. *)
Lemma process_message_ok (L : Lib) (W : World) (message_line : string) (st : State) :
  exists sent,
    fst (process_message L W message_line st) = Ok sent /\ one_response L sent.
Proof.
  unfold process_message.
  destruct (str_is_empty message_line || str_is_empty (strip message_line)).
  { exists []. split; [reflexivity|apply one_response_nil]. }
  match goal with
  | |- exists sent, fst (try_except ?c ?h st) = Ok sent /\ _ =>
      assert (Hc : spec (fun _ => True) (one_response L) c);
      [|destruct (Hc st Logic.I) as (_ & Hq);
        change (try_except c h st)
          with (match c st with
                | (Ok a, st') => (Ok a, st')
                | (Raise e, st') => h e st'
                end);
        destruct (c st) as [[sent|e] st1]; cbn [fst] in *]
  end.
  - unfold emit, get_m, get_or_m, as_str.
    repeat first
      [ apply spec_run; intros; exact Logic.I
      | apply spec_ret; first [apply one_response_emit | apply one_response_nil]
      | spec_step ].
  - exists sent. split; [reflexivity|apply Hq; reflexivity].
  - exists []. split; [reflexivity|apply one_response_nil].
Qed.

(** X16. One turn of the message loop of a connection with a pending
    line: the line leaves the head of its read stream, processing it
    does not raise, and what it yields (at most one response, a dumped
    line) joins the end of its write stream.  The registry and the
    streams of every other connection are untouched. *)
Theorem step_outcome (L : Lib) (W : World) (c : nat) (srv : Server)
    (conn : Connection) (message_line : string) (rest : list string) :
  connections srv !! c = Some conn ->
  read_stream conn = message_line :: rest ->
  exists sent,
    fst (process_message L W message_line (device srv)) = Ok sent /\
    (List.length sent <= 1)%nat /\
    Forall (fun l => exists response, l = line_of L response) sent /\
    step L W c srv
      = mkServer (sessions srv)
          (<[c := mkConnection (session_id conn) rest (write_stream conn ++ sent)]>
             (connections srv))
          (opened srv) (snd (process_message L W message_line (device srv))) /\
    forall c', c' <> c ->
      connections (step L W c srv) !! c' = connections srv !! c'.
Proof.
  intros Hc Hr.
  destruct (process_message_ok L W message_line (device srv))
    as (sent & Hsent & Hn & Hf).
  exists sent. split; [exact Hsent|]. split; [exact Hn|]. split; [exact Hf|].
  assert (Hstep : step L W c srv
      = mkServer (sessions srv)
          (<[c := mkConnection (session_id conn) rest (write_stream conn ++ sent)]>
             (connections srv))
          (opened srv) (snd (process_message L W message_line (device srv)))).
  { unfold step. rewrite Hc, Hr.
    destruct (process_message L W message_line (device srv)) as [r dev].
    cbn [fst snd] in *. subst r. reflexivity. }
  split; [exact Hstep|].
  intros c' Hne. rewrite Hstep. cbn [connections].
  apply lookup_insert_ne. congruence.
Qed.

Lemma step_outcome_witness :
  connections
    (step plain_lib offline 0
       (snd (handle_messages plain_lib (Some "s1") ping (one_session "s1")))) !! 1%nat
  = None.
Proof.
  destruct (step_outcome plain_lib offline 0
              (snd (handle_messages plain_lib (Some "s1") ping (one_session "s1")))
              (mkConnection "s1" ["{}" +:+ newline] []) ("{}" +:+ newline) []
              eq_refl eq_refl) as (sent & _ & _ & _ & _ & Hother).
  rewrite (Hother 1%nat); [reflexivity|discriminate].
Defined.

(** X17. A line that is blank, that does not parse, or that parses to
    anything but a JSON object is dropped: nothing is sent and the
    handler state is untouched. *)
Theorem process_message_drops (L : Lib) (W : World)
    (message_line : string) (st : State) :
  (str_is_empty (strip message_line) = true ->
     process_message L W message_line st = (Ok [], st)) /\
  (forall e, json_loads L (strip message_line) = Raise e ->
     process_message L W message_line st = (Ok [], st)) /\
  (forall v, json_loads L (strip message_line) = Ok v ->
     (forall m, v <> JObj m) ->
     process_message L W message_line st = (Ok [], st)).
Proof.
  unfold process_message. split; [|split].
  - intros ->. rewrite orb_true_r. reflexivity.
  - intros e He. destruct (_ || _); [reflexivity|].
    munfold. rewrite He. reflexivity.
  - intros v Hv Hno. destruct (_ || _); [reflexivity|].
    unfold get_m, get_or_m. munfold. rewrite Hv.
    destruct v; try reflexivity. exfalso. exact (Hno kv eq_refl).
Qed.

Lemma process_message_drops_witness :
  process_message plain_lib offline "   " fresh = (Ok [], fresh) /\
  process_message plain_lib offline "{not json" fresh = (Ok [], fresh) /\
  process_message (reading (JArr [])) offline "[]" fresh = (Ok [], fresh).
Proof.
  split; [|split].
  - apply (process_message_drops plain_lib offline "   " fresh). reflexivity.
  - destruct (process_message_drops plain_lib offline "{not json" fresh)
      as (_ & H & _).
    apply (H (Exn JSONDecodeError "Expecting value")). reflexivity.
  - destruct (process_message_drops (reading (JArr [])) offline "[]" fresh)
      as (_ & _ & H).
    apply (H (JArr [])); [reflexivity|discriminate].
Defined.




(** X19. A [tools/call] message with a dict of parameters is answered
    with exactly one line: under the [id] of the message, a result whose
    [content] is the single text item [call_tool] returned for the
    [name] and [arguments] of the parameters ([None] and [{}] when
    absent).  The handler state is the one the tool call leaves; the
    internal-error answer is never produced. *)
Theorem process_message_tools_call (L : Lib) (W : World)
    (message_line : string) (message_data params : dict) (st : State) :
  str_is_empty (strip message_line) = false ->
  json_loads L (strip message_line) = Ok (JObj message_data) ->
  lookup_key "method" message_data = Some (JStr "tools/call") ->
  get_or "params" (JObj []) message_data = JObj params ->
  let out := call_tool L W (get "name" params)
               (get_or "arguments" (JObj []) params) st in
  exists t,
    fst out = text_result t /\
    process_message L W message_line st
      = (Ok [line_of L
               (rpc_result (get "id" message_data)
                  (JObj [("content",
                          JArr [JObj [("type", JStr "text"); ("text", JStr t)]])]))],
         snd out).
Proof.
  intros Hline Hload Hm Hp out. subst out.
  destruct (call_tool_is_text L W (get "name" params)
              (get_or "arguments" (JObj []) params) st) as (t & Ht).
  exists t. split; [exact Ht|].
  assert (Hmeth : get_or "method" JNull message_data = JStr "tools/call")
    by (unfold get_or; rewrite Hm; reflexivity).
  change (get "name" params) with (get_or "name" JNull params) in Ht |- *.
  unfold process_message.
  rewrite (strip_nonempty _ Hline), Hline. cbn [orb].
  unfold get_m, get_or_m, emit. munfold. rewrite Hload, !Hmeth, !Hp.
  cbn [truthy str_is_empty negb is_str String.eqb Ascii.eqb Bool.eqb andb].
  destruct (call_tool L W (get_or "name" JNull params)
              (get_or "arguments" (JObj []) params) st) as [r st1].
  cbn [fst snd] in *. subst r. reflexivity.
Qed.

Lemma process_message_tools_call_witness :
  exists t,
    process_message
      (reading (JObj [("jsonrpc", JStr "2.0"); ("id", JNum 3);
                      ("method", JStr "tools/call");
                      ("params", JObj [("name", JStr "ultimate_version")])]))
      offline "{}" fresh
    = (Ok [line_of (reading JNull)
             (rpc_result (JNum 3)
                (JObj [("content",
                        JArr [JObj [("type", JStr "text"); ("text", JStr t)]])]))],
       fresh).
Proof.
  destruct (process_message_tools_call
              (reading (JObj [("jsonrpc", JStr "2.0"); ("id", JNum 3);
                              ("method", JStr "tools/call");
                              ("params", JObj [("name", JStr "ultimate_version")])]))
              offline "{}" _ [("name", JStr "ultimate_version")] fresh
              eq_refl eq_refl eq_refl eq_refl) as (t & _ & H).
  exists t. exact H.
Defined.

(** ** From the message endpoint to the push stream *)





End LoopFacts.

(* ===================================================================== *)
(** * The direct upload, past the decoding                                *)
(* ===================================================================== *)

Module UploadFacts.
Import Py Ultimate Web Sample Stdio Effects Cases StringFacts UltimateFacts WebFacts.

Lemma upload_payload_run (L : Lib) (request : UploadRequest)
    (prg_data : list byte) (st : State) :
  fst (upload_payload L request st) = Ok (inr prg_data) ->
  upload_payload L request st = (Ok (inr prg_data), st).
Proof.
  intros H. pose proof (upload_payload_state L request st) as Hs.
  destruct (upload_payload L request st) as [r st1].
  cbn [fst snd] in *. congruence.
Qed.

Lemma size_nonempty (raw : list byte) : raw <> [] -> (size raw =? 0) = false.
Proof. destruct raw; [congruence|reflexivity]. Qed.

(** X21. A direct upload with a payload of at least one byte, when a
    connection is configured: exactly one request goes to the client,
    a POST of the payload, byte for byte, to [runners:run_prg] below the
    API base.  On status 200 the answer reports success and the size of
    the payload; on any other status the answer reports the failure
    with the body text and carries the status of the device; if the
    client raises, the answer is 500 (400 for a base64 error) with the
    description. *)
Theorem upload_forwarded (L : Lib) (W : World) (request : UploadRequest)
    (prg_data : list byte) (st : State) :
  fst (upload_payload L request st) = Ok (inr prg_data) ->
  prg_data <> [] ->
  opt_truthy (api_base (handler st)) = true ->
  let rq := run_prg_request (handler st) prg_data None in
  let out := handle_upload_prg L W request st in
  snd out = mkState (handler st) (issued st ++ [rq]) /\
  (forall e, http W (List.length (issued st)) rq = Raise e ->
     fst out = if is_binascii e
               then error_response 400 ("Invalid base64 data: " +:+ exn_msg e)
               else error_response 500 (exn_msg e)) /\
  (forall r, http W (List.length (issued st)) rq = Ok r ->
     (rs_status r = 200 ->
      exists response_data,
        fst out = json_response
                    (JObj [("success", JBool true);
                           ("message", JStr ("Running PRG (" +:+ pretty (size prg_data)
                                             +:+ " bytes)"));
                           ("size_bytes", JNum (size prg_data));
                           ("response", response_data)])) /\
     (rs_status r <> 200 ->
      forall body, rs_text r = Ok body ->
        fst out = mkJSONResponse
                    (JObj [("success", JBool false);
                           ("error", JStr ("Failed to run PRG: HTTP "
                                           +:+ pretty (rs_status r)));
                           ("details", JStr body)])
                    (rs_status r))).
Proof.
  intros Hp Hne Hc rq out. subst rq out.
  unfold handle_upload_prg. munfold.
  rewrite (upload_payload_run L request prg_data st Hp).
  rewrite (size_nonempty prg_data Hne).
  destruct st as [h log]. munfold. rewrite Hc. munfold.
  unfold run_prg_request.
  set (rq := mkRequest _ _ _ _ _ _).
  destruct (http W (List.length log) rq) as [r|e]; munfold.
  2:{ split; [destruct (is_binascii e); reflexivity|].
      split; [intros e' [= <-]; destruct (is_binascii e); reflexivity|discriminate]. }
  destruct (Z.eqb_spec (rs_status r) 200) as [E|N]; munfold.
  - destruct (rs_json r) as [j|e]; munfold;
      (split; [reflexivity|]); (split; [discriminate|]);
      intros r' [= <-]; (split; [intros _; eexists; reflexivity|intros; lia]).
  - destruct (rs_text r) as [body|e] eqn:Hb; munfold.
    + split; [reflexivity|]. split; [discriminate|].
      intros r' [= <-]. split; [intros; lia|].
      intros _ body' Hb'. rewrite Hb in Hb'. injection Hb' as <-. reflexivity.
    + split; [destruct (is_binascii e); reflexivity|]. split; [discriminate|].
      intros r' [= <-]. split; [intros; lia|].
      intros _ body' Hb'. rewrite Hb in Hb'. discriminate.
Qed.

Lemma upload_forwarded_witness :
  handle_upload_prg plain_lib (answering not_found_answer) (octet_upload program)
    configured
  = (mkJSONResponse
       (JObj [("success", JBool false);
              ("error", JStr "Failed to run PRG: HTTP 404");
              ("details", JStr "Not Found")]) 404,
     mkState (handler configured)
       [mkRequest "POST" "http://192.168.1.64/v1/runners:run_prg" None
          (RawBody program) (Some "application/octet-stream") None]).
Proof.
  destruct (upload_forwarded plain_lib (answering not_found_answer)
              (octet_upload program) program configured eq_refl)
    as (Hs & _ & Hr); [discriminate|reflexivity|].
  destruct (Hr not_found_answer eq_refl) as (_ & H).
  apply injective_projections; cbn [fst snd].
  - apply (H ltac:(cbn; lia) "Not Found"). reflexivity.
  - exact Hs.
Defined.

(** X22. A direct upload with a payload of at least one byte while no
    connection is configured is answered 400 with [success] false and
    the not-configured message; nothing is sent. *)
Theorem upload_not_configured (L : Lib) (W : World) (request : UploadRequest)
    (prg_data : list byte) (st : State) :
  fst (upload_payload L request st) = Ok (inr prg_data) ->
  prg_data <> [] ->
  opt_truthy (api_base (handler st)) = false ->
  handle_upload_prg L W request st
  = (mkJSONResponse (JObj [("success", JBool false);
                           ("error", JStr not_configured)]) 400, st).
Proof.
  intros Hp Hne Hc.
  unfold handle_upload_prg. munfold.
  rewrite (upload_payload_run L request prg_data st Hp).
  rewrite (size_nonempty prg_data Hne).
  munfold. rewrite Hc. reflexivity.
Qed.

Lemma upload_not_configured_witness :
  handle_upload_prg plain_lib offline (octet_upload program) fresh
  = (mkJSONResponse (JObj [("success", JBool false);
                           ("error", JStr not_configured)]) 400, fresh).
Proof.
  apply (upload_not_configured plain_lib offline (octet_upload program)
           program fresh); [reflexivity|discriminate|reflexivity].
Defined.

(** What the decoding part answers by itself is a 400. *)
Lemma upload_payload_refusal (L : Lib) (request : UploadRequest) :
  spec (fun _ => True)
       (fun p => match p with
                 | inl response => status_code response = 400
                 | inr _ => True
                 end)
       (upload_payload L request).
Proof.
  unfold upload_payload, contains_key, getitem.
  repeat first
    [ apply spec_ret; first [reflexivity | exact Logic.I]
    | spec_step ].
Qed.

(** X23. A direct upload that is refused while the request is read
    sends nothing.  When the decoding part answers by itself (no [file]
    field, no [prg_data_base64] key, unsupported content type) the
    answer is a 400; when it raises, the answer is 500 with the
    description, or 400 for a base64 error. *)
Theorem upload_refused (L : Lib) (W : World) (request : UploadRequest) (st : State) :
  (forall response,
     fst (upload_payload L request st) = Ok (inl response) ->
     status_code response = 400 /\
     handle_upload_prg L W request st = (response, st)) /\
  (forall e,
     fst (upload_payload L request st) = Raise e ->
     handle_upload_prg L W request st
     = (if is_binascii e
        then error_response 400 ("Invalid base64 data: " +:+ exn_msg e)
        else error_response 500 (exn_msg e), st)).
Proof.
  pose proof (upload_payload_state L request st) as Hs.
  destruct (upload_payload_refusal L request st Logic.I) as (_ & Hq).
  unfold handle_upload_prg. munfold.
  destruct (upload_payload L request st) as [[p|e] st1];
    cbn [fst snd] in *; subst st1; split.
  - intros response [= ->]. split; [exact (Hq _ eq_refl)|reflexivity].
  - discriminate.
  - discriminate.
  - intros e' [= <-]. destruct (is_binascii e); reflexivity.
Qed.

Lemma upload_refused_witness :
  handle_upload_prg plain_lib offline
    (mkUploadRequest (Some "127.0.0.1") "text/plain" (Ok []) (Ok program) (Ok JNull))
    configured
  = (error_response 400
       "Unsupported content type. Use multipart/form-data, application/octet-stream, or application/json with base64",
     configured).
Proof.
  destruct (upload_refused plain_lib offline
              (mkUploadRequest (Some "127.0.0.1") "text/plain" (Ok []) (Ok program)
                 (Ok JNull)) configured) as (H & _).
  apply H. reflexivity.
Defined.

(** ** The load address *)

Lemma land_low_high (a b : Z) : 0 <= a < 256 -> Z.land a (Z.shiftl b 8) = 0.
Proof.
  intros Ha. apply Z.bits_inj'. intros n Hn.
  rewrite Z.land_spec, Z.bits_0.
  destruct (Z.lt_ge_cases n 8) as [Hlow|Hhigh].
  - rewrite Z.shiftl_spec_low by lia. apply andb_false_r.
  - destruct (Z.eq_dec a 0) as [->|Hz]; [rewrite Z.bits_0; reflexivity|].
    rewrite (Z.bits_above_log2 a n); [reflexivity|lia|].
    assert (Z.log2 a < 8) by (apply Z.log2_lt_pow2; lia). lia.
Qed.

(** X24. The load address logged for an upload is the 16-bit
    little-endian value of the first two bytes: the first byte plus 256
    times the second, hence between 0 and 65535; for a payload of fewer
    than two bytes it is 0. *)
Theorem load_addr_little_endian (prg_data : list byte) :
  0 <= load_addr prg_data < 65536 /\
  ((List.length prg_data < 2)%nat -> load_addr prg_data = 0) /\
  (forall b0 b1 rest, prg_data = b0 :: b1 :: rest ->
     load_addr prg_data
       = Z.of_N (Byte.to_N b0) + 256 * Z.of_N (Byte.to_N b1)).
Proof.
  assert (Hle : forall b0 b1 rest,
    load_addr (b0 :: b1 :: rest)
      = Z.of_N (Byte.to_N b0) + 256 * Z.of_N (Byte.to_N b1)).
  { intros b0 b1 rest. cbn [load_addr].
    pose proof (Byte.to_N_bounded b0) as H0.
    pose proof (Z.add_lor_land (Z.of_N (Byte.to_N b0))
                  (Z.shiftl (Z.of_N (Byte.to_N b1)) 8)) as H.
    rewrite land_low_high in H by lia.
    rewrite Z.shiftl_mul_pow2 in H by lia. change (2 ^ 8) with 256 in H.
    rewrite Z.shiftl_mul_pow2 by lia. change (2 ^ 8) with 256. lia. }
  split; [|split].
  - destruct prg_data as [|b0 [|b1 rest]]; [cbn [load_addr]; lia..|].
    rewrite Hle.
    pose proof (Byte.to_N_bounded b0). pose proof (Byte.to_N_bounded b1). lia.
  - destruct prg_data as [|b0 [|b1 rest]]; cbn [List.length load_addr]; intros; lia.
  - intros b0 b1 rest ->. apply Hle.
Qed.

Lemma load_addr_little_endian_witness : load_addr program = 2049.
Proof.
  destruct (load_addr_little_endian program) as (_ & _ & H).
  rewrite (H x01 x08 [x0b; x08] eq_refl). reflexivity.
Defined.

End UploadFacts.
